(** * claude_swarm_mcp_server: registry, relations, persistence and chat handlers

    A shallow embedding of [src/claude_swarm_mcp_server.py].  The module
    level globals of the server ([agents], [conversation_history],
    [current_agent], [context_variables]) together with the storage file
    and the diagnostics stream are threaded explicitly through every
    handler as one [State] record. *)

From Stdlib Require Import String List Bool Ascii Arith Lia DecimalString.
Import ListNotations.
Open Scope string_scope.

Set Implicit Arguments.
Set Warnings "-register-all".

(** ** Python dictionaries

    A [dict] keeps its keys in insertion order, and several handlers depend
    on that order ([list(agents.keys())[0]], the order of the transfer
    functions, the order of the saved file).  It is therefore an association
    list whose keys are pairwise distinct ([wf]). *)

Module PyDict.
Section Dict.
Variable V : Type.

Definition dict := list (string * V).

Definition keys (d : dict) : list string := map fst d.
Definition values (d : dict) : list V := map snd d.
Definition items (d : dict) : list (string * V) := d.

(** [d.get(k)] *)
Fixpoint get (k : string) (d : dict) : option V :=
  match d with
  | [] => None
  | (k', v) :: r => if String.eqb k' k then Some v else get k r
  end.

(** [k in d] *)
Definition mem (k : string) (d : dict) : bool :=
  match get k d with Some _ => true | None => false end.

(** [d[k] = v]: an existing key keeps its position, a new one goes last. *)
Fixpoint set (k : string) (v : V) (d : dict) : dict :=
  match d with
  | [] => [(k, v)]
  | (k', v') :: r =>
      if String.eqb k' k then (k', v) :: r else (k', v') :: set k v r
  end.

(** [d.update(d2)] *)
Definition update (d d2 : dict) : dict :=
  fold_left (fun acc kv => set (fst kv) (snd kv) acc) d2 d.

(** [bool(d)] *)
Definition nonempty (d : dict) : bool :=
  match d with [] => false | _ :: _ => true end.

(** [list(d.keys())[0]], an [IndexError] on the empty dict. *)
Definition first_key (d : dict) : option string :=
  match d with [] => None | (k, _) :: _ => Some k end.

Definition wf (d : dict) : Prop := NoDup (keys d).
End Dict.
End PyDict.

Abbreviation dict := PyDict.dict.

(** ** Values

    Messages and context variables hold arbitrary Python values; the server
    only ever formats them with [str]. *)

Inductive value :=
| VStr (s : string)
| VNone
| VOther (repr : string).

Definition py_str (v : value) : string :=
  match v with
  | VStr s => s
  | VNone => "None"
  | VOther r => r
  end.

Definition message := dict value.

(** ** Agents *)

(** The closure built by [create_transfer]: calling it returns the agent
    object stored under [tf_target] in the registry; [tf_target_name] is
    that object's [name], which the closure's [__name__] and [__doc__] are
    derived from. *)
Record transfer_function := {
  tf_target : string;
  tf_target_name : string
}.

Record ClaudeAgent := {
  name : string;
  model : string;
  instructions : string;
  functions : list transfer_function
}.

Definition with_functions (a : ClaudeAgent) (fs : list transfer_function) : ClaudeAgent :=
  {| name := name a; model := model a; instructions := instructions a;
     functions := fs |}.

(** The names an agent can hand off to. *)
Definition transferTargets (a : ClaudeAgent) : list string :=
  map tf_target_name (functions a).

(** ** Relation builder: [_setup_transfer_functions] *)

Definition create_transfer (target_name : string) (target : ClaudeAgent) : transfer_function :=
  {| tf_target := target_name; tf_target_name := name target |}.

(** First loop: one transfer function per registry entry, keyed like the
    registry. *)
Definition build_transfer_functions (agents : dict ClaudeAgent) : dict transfer_function :=
  map (fun kv => (fst kv, create_transfer (fst kv) (snd kv))) agents.

(** Inner loop of the second pass: every function whose key differs from
    [source_name], in the order of [transfer_functions]. *)
Fixpoint functions_for (source_name : string) (tfs : dict transfer_function)
  : list transfer_function :=
  match tfs with
  | [] => []
  | (target_name, transfer_func) :: r =>
      if negb (String.eqb target_name source_name)
      then transfer_func :: functions_for source_name r
      else functions_for source_name r
  end.

Definition setup_transfer_functions (agents : dict ClaudeAgent) : dict ClaudeAgent :=
  let transfer_functions := build_transfer_functions agents in
  map (fun kv => (fst kv, with_functions (snd kv) (functions_for (fst kv) transfer_functions)))
      agents.

(** Registry invariant of the data model: every key equals its record's name. *)
Definition keys_are_names (agents : dict ClaudeAgent) : Prop :=
  forall k a, In (k, a) agents -> name a = k.

Definition other_names (k : string) (l : list string) : list string :=
  filter (fun k' => negb (String.eqb k' k)) l.


(** ** Storage

    [AGENTS_FILE] holds one JSON document.  The text codec ([json.dump],
    [json.load]) belongs to Python's library: a file is modelled by what
    [json.load] makes of it. *)

Inductive json :=
| JNull
| JBool (b : bool)
| JNum (literal : string)
| JStr (s : string)
| JArr (elems : list json)
| JObj (members : dict json).

Inductive file :=
| Absent                      (* [AGENTS_FILE.exists()] is false *)
| Garbage (raw : string)      (* bytes [json.load] rejects; [""] for a zero-length file *)
| Document (doc : json).      (* bytes [json.load] parses to [doc] *)

Record storage := {
  content : file;
  writable : bool               (* [open(AGENTS_FILE, 'w')] raises when false *)
}.

(** The two statements of the [with] block in [save_agents], as file
    operations: [open(..., 'w')] truncates the file, [json.dump] then writes
    the document. *)
Inductive fs_op :=
| OpenTruncate
| Dump (doc : json).

Definition fs_step (f : file) (op : fs_op) : file :=
  match op with
  | OpenTruncate => Garbage ""
  | Dump doc => Document doc
  end.

Definition fs_run (ops : list fs_op) (f : file) : file := fold_left fs_step ops f.

(** ** Process state *)

(** Lines printed to [sys.stderr]. *)
Inductive log_line :=
| LogLoaded (n : nat)
| LogLoadError
| LogSaved (n : nat)
| LogSaveError
| LogSetup (n : nat)
| LogCreated (agent : string)
| LogChatCompleted (from to : string)
| LogSwarmError (msg : string)
| LogFinanceTeam (created : list string).

(** What [swarm_client.run] receives. *)
Record run_call := {
  call_agent : ClaudeAgent;
  call_messages : list message;
  call_context : dict value
}.

Record State := {
  agents : dict ClaudeAgent;
  conversation_history : list message;
  current_agent : option string;
  context_variables : dict value;
  AGENTS_FILE : storage;
  stderr : list log_line;
  swarm_calls : list run_call        (* every call made to the collaborator, oldest first *)
}.

Definition initial_state (disk : storage) : State :=
  {| agents := []; conversation_history := []; current_agent := None;
     context_variables := []; AGENTS_FILE := disk; stderr := [];
     swarm_calls := [] |}.

(** The part of the state the spec calls SessionState. *)
Definition session (s : State) : list message * option string * dict value :=
  (conversation_history s, current_agent s, context_variables s).

Definition set_agents (s : State) (a : dict ClaudeAgent) : State :=
  {| agents := a; conversation_history := conversation_history s;
     current_agent := current_agent s; context_variables := context_variables s;
     AGENTS_FILE := AGENTS_FILE s; stderr := stderr s; swarm_calls := swarm_calls s |}.

Definition set_conversation_history (s : State) (h : list message) : State :=
  {| agents := agents s; conversation_history := h;
     current_agent := current_agent s; context_variables := context_variables s;
     AGENTS_FILE := AGENTS_FILE s; stderr := stderr s; swarm_calls := swarm_calls s |}.

Definition set_current_agent (s : State) (c : option string) : State :=
  {| agents := agents s; conversation_history := conversation_history s;
     current_agent := c; context_variables := context_variables s;
     AGENTS_FILE := AGENTS_FILE s; stderr := stderr s; swarm_calls := swarm_calls s |}.

Definition set_context_variables (s : State) (c : dict value) : State :=
  {| agents := agents s; conversation_history := conversation_history s;
     current_agent := current_agent s; context_variables := c;
     AGENTS_FILE := AGENTS_FILE s; stderr := stderr s; swarm_calls := swarm_calls s |}.

Definition set_file (s : State) (f : file) : State :=
  {| agents := agents s; conversation_history := conversation_history s;
     current_agent := current_agent s; context_variables := context_variables s;
     AGENTS_FILE := {| content := f; writable := writable (AGENTS_FILE s) |};
     stderr := stderr s; swarm_calls := swarm_calls s |}.

Definition print (s : State) (l : log_line) : State :=
  {| agents := agents s; conversation_history := conversation_history s;
     current_agent := current_agent s; context_variables := context_variables s;
     AGENTS_FILE := AGENTS_FILE s; stderr := stderr s ++ [l];
     swarm_calls := swarm_calls s |}.

Definition record_call (s : State) (c : run_call) : State :=
  {| agents := agents s; conversation_history := conversation_history s;
     current_agent := current_agent s; context_variables := context_variables s;
     AGENTS_FILE := AGENTS_FILE s; stderr := stderr s;
     swarm_calls := swarm_calls s ++ [c] |}.

(** Truthiness of [current_agent] and of string arguments. *)
Definition str_truthy (x : string) : bool := negb (String.eqb x "").

Definition opt_truthy (o : option string) : bool :=
  match o with Some x => str_truthy x | None => false end.

(** [_setup_transfer_functions()] on the global registry. *)
Definition do_setup_transfer_functions (s : State) : State :=
  let s1 := set_agents s (setup_transfer_functions (agents s)) in
  print s1 (LogSetup (length (agents s1))).

(** ** [save_agents] *)

Definition agent_entry (a : ClaudeAgent) : json :=
  JObj [("name", JStr (name a)); ("model", JStr (model a));
        ("instructions", JStr (instructions a))].

(** The [agent_data] dictionary built by the loop. *)
Definition agent_data_of (ags : dict ClaudeAgent) : dict json :=
  fold_left (fun acc kv => PyDict.set (fst kv) (agent_entry (snd kv)) acc) ags [].

Definition save_agents_ops (ags : dict ClaudeAgent) : list fs_op :=
  [OpenTruncate; Dump (JObj (agent_data_of ags))].

Definition save_agents (s : State) : State :=
  if writable (AGENTS_FILE s)
  then
    let s1 := set_file s (fs_run (save_agents_ops (agents s)) (content (AGENTS_FILE s))) in
    print s1 (LogSaved (length (agents s1)))
  else print s LogSaveError.

(** [save_agents] interrupted after its first [n] file operations. *)
Definition save_agents_crashed (n : nat) (s : State) : State :=
  set_file s (fs_run (firstn n (save_agents_ops (agents s))) (content (AGENTS_FILE s))).

(** ** [load_agents] *)

(** [ClaudeAgent(name=data["name"], model=data["model"],
    instructions=data["instructions"], functions=[])].  The subscripts raise
    when [data] is not an object or lacks one of the three members
    ([None]); an object whose three members are strings gives the agent.
    For a member that is present but not a string the subscripts do not
    raise and the outcome is up to the [ClaudeAgent] constructor, which is
    not part of this repository: the [None] given here stands for that
    open case, and no statement below is made about such records. *)
Definition agent_of_json (data : json) : option ClaudeAgent :=
  match data with
  | JObj o =>
      match PyDict.get "name" o, PyDict.get "model" o, PyDict.get "instructions" o with
      | Some (JStr n), Some (JStr m), Some (JStr i) =>
          Some {| name := n; model := m; instructions := i; functions := [] |}
      | _, _, _ => None
      end
  | _ => None
  end.

(** The [for name, data in agent_data.items()] loop.  It writes into the
    global registry as it goes; the boolean tells whether it ran to the end
    ([true]) or an iteration raised ([false]). *)
Fixpoint load_loop (entries : list (string * json)) (ags : dict ClaudeAgent)
  : dict ClaudeAgent * bool :=
  match entries with
  | [] => (ags, true)
  | (k, data) :: r =>
      match agent_of_json data with
      | Some agent => load_loop r (PyDict.set k agent ags)
      | None => (ags, false)
      end
  end.

Definition load_agents (s : State) : State :=
  match content (AGENTS_FILE s) with
  | Absent => print s (LogLoaded (length (agents s)))
  | Garbage _ => print s LogLoadError
  | Document (JObj entries) =>
      match load_loop (PyDict.items entries) (agents s) with
      | (ags, true) =>
          let s1 := do_setup_transfer_functions (set_agents s ags) in
          let s2 :=
            if PyDict.nonempty (agents s1) && negb (opt_truthy (current_agent s1))
            then set_current_agent s1 (PyDict.first_key (agents s1))
            else s1 in
          print s2 (LogLoaded (length (agents s2)))
      | (ags, false) => print (set_agents s ags) LogLoadError
      end
  | Document _ => print s LogLoadError
  end.

(** ** Request arguments *)

(** [args.get(key, default)] on a request's argument mapping. *)
Definition args_get (key default : string) (args : dict string) : string :=
  match PyDict.get key args with Some v => v | None => default end.

Definition nl : string := String (ascii_of_nat 10) EmptyString.

(** ** [create_agent_handler] *)

Definition validation_failure : string := "❌ Name and instructions required".

Definition duplicate_failure (n : string) : string :=
  "❌ Agent '" ++ n ++ "' already exists".

Definition create_agent_handler (args : dict string) (s : State) : string * State :=
  let name_ := args_get "name" "" args in
  let instructions_ := args_get "instructions" "" args in
  let model_ := args_get "model" "claude-3-5-sonnet-20241022" args in
  if negb (str_truthy name_) || negb (str_truthy instructions_)
  then (validation_failure, s)
  else if PyDict.mem name_ (agents s)
  then (duplicate_failure name_, s)
  else
    let agent :=
      {| name := name_; model := model_; instructions := instructions_;
         functions := [] |} in
    let s1 := set_agents s (PyDict.set name_ agent (agents s)) in
    let s2 := do_setup_transfer_functions s1 in
    let s3 := if negb (opt_truthy (current_agent s2))
              then set_current_agent s2 (Some name_) else s2 in
    let s4 := save_agents s3 in
    let s5 := print s4 (LogCreated name_) in
    ("✅ Created Swarm agent '" ++ name_ ++ "' with transfer capabilities!", s5).

(** ** [chat_with_swarm_handler] *)

Record ClaudeResponse := {
  messages : list message;
  agent : ClaudeAgent;
  response_context_variables : dict value
}.

(** [swarm_client.run] either returns a response or raises; [Raised e]
    carries [str(e)]. *)
Inductive run_result :=
| Returned (response : ClaudeResponse)
| Raised (e : string).

(** The orchestration collaborator: [swarm_client.run(agent, messages,
    context_variables)].  It works on its arguments' values and leaves the
    caller's list and dictionary as they are. *)
Definition collaborator := ClaudeAgent -> list message -> dict value -> run_result.

Definition user_message_of (msg : string) : message :=
  [("role", VStr "user"); ("content", VStr msg)].

(** [starting_agent_name = args.get("agent_name", current_agent)] *)
Definition requested_agent_name (args : dict string) (s : State) : option string :=
  match PyDict.get "agent_name" args with
  | Some n => Some n
  | None => current_agent s
  end.

(** The "Get starting agent" block: the requested name when it is truthy
    and a key of the registry, the first key otherwise.  [None] only on the
    empty registry, which the handler has left by then. *)
Definition starting_agent_of (args : dict string) (s : State)
  : option (string * ClaudeAgent) :=
  match agents s with
  | [] => None
  | (k0, a0) :: _ =>
      match requested_agent_name args s with
      | Some n =>
          if str_truthy n
          then match PyDict.get n (agents s) with
               | Some a => Some (n, a)
               | None => Some (k0, a0)
               end
          else Some (k0, a0)
      | None => Some (k0, a0)
      end
  end.

Definition swarm_error (e : string) : string := "❌ Swarm error: " ++ e.

Definition transfer_info_of (starting_agent_name final_name : string) : string :=
  if negb (String.eqb final_name starting_agent_name)
  then nl ++ nl ++ "🔄 **Agent Transfer**: " ++ starting_agent_name ++ " → " ++ final_name
  else "".

Definition chat_reply (final_name agent_response transfer_info : string) : string :=
  "🤖 **" ++ final_name ++ "**:" ++ nl ++ nl ++ agent_response ++ transfer_info.

Definition chat_with_swarm_handler (swarm_client_run : collaborator)
  (args : dict string) (s : State) : string * State :=
  let message_ := args_get "message" "" args in
  if negb (str_truthy message_)
  then ("❌ Message is required", s)
  else if negb (PyDict.nonempty (agents s))
  then ("❌ No agents available. Create agents first.", s)
  else
    match starting_agent_of args s with
    | None => ("❌ No agents available. Create agents first.", s)   (* not reached *)
    | Some (starting_agent_name, starting_agent) =>
        let s1 := set_conversation_history s
                    (conversation_history s ++ [user_message_of message_]) in
        let s2 := record_call s1
                    {| call_agent := starting_agent;
                       call_messages := conversation_history s1;
                       call_context := context_variables s1 |} in
        match swarm_client_run starting_agent (conversation_history s1)
                (context_variables s1) with
        | Returned response =>
            let s3 := set_conversation_history s2 (messages response) in
            let s4 := set_current_agent s3 (Some (name (agent response))) in
            let s5 := set_context_variables s4
                        (PyDict.update (context_variables s4)
                           (response_context_variables response)) in
            let last_message := last (messages response) [] in
            let agent_response :=
              match PyDict.get "content" last_message with
              | Some v => py_str v
              | None => "No response"
              end in
            let transfer_info :=
              transfer_info_of starting_agent_name (name (agent response)) in
            let s6 := print s5 (LogChatCompleted starting_agent_name
                                  (name (agent response))) in
            (chat_reply (name (agent response)) agent_response transfer_info, s6)
        | Raised e =>
            let error_msg := swarm_error e in
            (error_msg, print s2 (LogSwarmError error_msg))
        end
    end.

(** ** [create_finance_team_handler] *)

Definition default_model : string := "claude-3-5-sonnet-20241022".

(** [team_specs]: name, then instructions and model. *)
Definition team_specs (company_name : string) : dict (string * string) :=
  [ ("Risk_Analyst",
     ("You are a quantitative risk analyst for " ++ company_name ++
      ". When users ask about portfolio optimization or investment strategies, transfer to the Portfolio Manager. For market research questions, transfer to the Research Analyst. You specialize in VaR, stress testing, and risk metrics.",
      default_model));
    ("Portfolio_Manager",
     ("You are a portfolio manager for " ++ company_name ++
      ". When users ask about risk calculations, transfer to the Risk Analyst. For market analysis, transfer to the Research Analyst. For data questions, transfer to the Data Analyst. You specialize in optimization and asset allocation.",
      default_model));
    ("Data_Analyst",
     ("You are a financial data analyst for " ++ company_name ++
      ". When users ask about risk assessment, transfer to the Risk Analyst. For investment advice, transfer to the Portfolio Manager. You specialize in data collection and analysis.",
      default_model));
    ("Research_Analyst",
     ("You are a research analyst for " ++ company_name ++
      ". When users ask about portfolio optimization, transfer to the Portfolio Manager. For risk questions, transfer to the Risk Analyst. You specialize in market research and investment analysis.",
      default_model)) ].

Definition team_names : list string :=
  ["Risk_Analyst"; "Portfolio_Manager"; "Data_Analyst"; "Research_Analyst"].

(** The creation loop: registry and [created_agents] after visiting
    [specs]. *)
Fixpoint create_missing (specs : dict (string * string))
  (ags : dict ClaudeAgent) (created_agents : list string)
  : dict ClaudeAgent * list string :=
  match specs with
  | [] => (ags, created_agents)
  | (n, (instr, mdl)) :: r =>
      if negb (PyDict.mem n ags)
      then
        let agent := {| name := n; model := mdl; instructions := instr;
                        functions := [] |} in
        create_missing r (PyDict.set n agent ags) (created_agents ++ [n])
      else create_missing r ags created_agents
  end.

Definition team_header (company_name : string) : string :=
  "✅ **Swarm Finance Team for " ++ company_name ++ "**" ++ nl ++ nl.

Definition team_created_text (company_name : string) (created_agents : list string) : string :=
  team_header company_name
  ++ "**Created agents with transfer capabilities:** "
  ++ String.concat ", " created_agents ++ nl ++ nl
  ++ "🔄 **Swarm Features Enabled:**" ++ nl
  ++ "• Automatic agent handoffs based on expertise" ++ nl
  ++ "• Shared conversation context" ++ nl
  ++ "• Intelligent routing between specialists" ++ nl ++ nl
  ++ "💡 **Try multi-step queries** - agents will coordinate automatically!".

Definition team_exists_text (company_name : string) : string :=
  team_header company_name ++ "**Team already exists for " ++ company_name ++ "**".

Definition create_finance_team_handler (args : dict string) (s : State) : string * State :=
  let company_name := args_get "company_name" "Investment Firm" args in
  match create_missing (team_specs company_name) (agents s) [] with
  | (ags, []) => (team_exists_text company_name, set_agents s ags)
  | (ags, (_ :: _) as created_agents) =>
      let s1 := do_setup_transfer_functions (set_agents s ags) in
      let s2 := set_current_agent s1 (Some "Risk_Analyst") in
      let s3 := save_agents s2 in
      let s4 := print s3 (LogFinanceTeam created_agents) in
      (team_created_text company_name created_agents, s4)
  end.

(** ** Concrete registries and collaborators used in the examples below *)

Definition mk_agent (n : string) : ClaudeAgent :=
  {| name := n; model := default_model; instructions := "Be helpful";
     functions := [] |}.

Definition registry_AB : dict ClaudeAgent :=
  setup_transfer_functions [("A", mk_agent "A"); ("B", mk_agent "B")].

Definition disk0 : storage := {| content := Absent; writable := true |}.

Definition state_AB : State :=
  {| agents := registry_AB; conversation_history := [];
     current_agent := Some "B"; context_variables := [];
     AGENTS_FILE := disk0; stderr := []; swarm_calls := [] |}.

(** A collaborator whose call always raises. *)
Definition failing_run : collaborator := fun _ _ _ => Raised "connection refused".

(** A collaborator that returns no messages and stays on the agent it was given. *)
Definition silent_run : collaborator :=
  fun a _ _ => Returned {| messages := []; agent := a;
                           response_context_variables := [("k", VStr "v")] |}.

(** Starting-agent resolution as the spec words it: the explicit
    [agent_name] if it exists in the registry, else the current active
    agent, else the first registered agent. *)
Definition spec_lookup (o : option string) (s : State) : option (string * ClaudeAgent) :=
  match o with
  | Some n =>
      match PyDict.get n (agents s) with
      | Some a => Some (n, a)
      | None => None
      end
  | None => None
  end.

Definition spec_starting_agent (args : dict string) (s : State)
  : option (string * ClaudeAgent) :=
  match spec_lookup (PyDict.get "agent_name" args) s with
  | Some p => Some p
  | None =>
      match spec_lookup (current_agent s) s with
      | Some p => Some p
      | None => match agents s with [] => None | p :: _ => Some p end
      end
  end.

(** What a stored record holds of an agent. *)
Definition triple (a : ClaudeAgent) : string * string * string :=
  (name a, model a, instructions a).

Definition stored_entry (kv : string * ClaudeAgent) : string * json :=
  (fst kv, agent_entry (snd kv)).

(** A snapshot with one good record followed by one that lacks fields. *)
Definition broken_snapshot : json :=
  JObj [("A", agent_entry (mk_agent "A")); ("B", JObj [("name", JStr "B")])].

Definition broken_disk : storage :=
  {| content := Document broken_snapshot; writable := true |}.

(** A process holding agents A and B over a file that stores agent A only. *)
Definition state_AB_saved_A : State :=
  {| agents := registry_AB; conversation_history := [];
     current_agent := Some "A"; context_variables := [];
     AGENTS_FILE := {| content := Document (JObj [stored_entry ("A", mk_agent "A")]);
                       writable := true |};
     stderr := []; swarm_calls := [] |}.

(** The record the creation loop inserts for one entry of [team_specs]. *)
Definition team_agent (sp : string * (string * string)) : string * ClaudeAgent :=
  (fst sp, {| name := fst sp; model := snd (snd sp); instructions := fst (snd sp);
              functions := [] |}).

(** The entries of [specs] whose name is not yet a key of [ags]. *)
Definition missing_specs (specs : dict (string * string)) (ags : dict ClaudeAgent)
  : dict (string * string) :=
  filter (fun sp => negb (PyDict.mem (fst sp) ags)) specs.


(** ** Python string primitives used by the read-only tools *)

(** [str(n)] for a length or an index. *)
Definition py_str_nat (n : nat) : string := NilZero.string_of_uint (Nat.to_uint n).

(** Strings are kept as their UTF-8 bytes; Python slices by character.  A
    byte of the form [10xxxxxx] continues the character in progress. *)
Definition is_continuation (c : ascii) : bool :=
  match c with Ascii _ _ _ _ _ _ b6 b7 => b7 && negb b6 end.

(** [s[:n]] *)
Fixpoint take_chars (n : nat) (s : string) : string :=
  match s with
  | EmptyString => EmptyString
  | String c r =>
      if is_continuation c then String c (take_chars n r)
      else match n with
           | 0 => EmptyString
           | S n' => String c (take_chars n' r)
           end
  end.

(** [len(s)] *)
Fixpoint char_count (s : string) : nat :=
  match s with
  | EmptyString => 0
  | String c r => if is_continuation c then char_count r else S (char_count r)
  end.

(** An expression that yields text or raises; [Raise e] carries [str(e)]. *)
Inductive py_result :=
| Value (text : string)
| Raise (e : string).

(** What the server takes from the Python library and the model leaves
    open: [str.title], the [str] of a dictionary, and what [.title()] and
    [[:n]] do to a value that is neither a string nor [None] (given by its
    [repr]). *)
Record python := {
  str_title : string -> string;
  str_of_dict : dict value -> string;
  title_of_other : string -> py_result;
  slice_of_other : nat -> string -> py_result
}.

(** [f"{current_agent}"] *)
Definition str_of_current (o : option string) : string :=
  match o with Some n => n | None => "None" end.

(** [l[-n:]] for a positive [n]. *)
Definition last_n (A : Type) (n : nat) (l : list A) : list A :=
  skipn (length l - n) l.

(** ** [get_conversation_history_handler] *)

Definition no_history_text : string :=
  "📝 No conversation history yet. Start chatting to see Swarm coordination!".

(** [msg.get("role", "unknown").title()] *)
Definition role_of (py : python) (msg : message) : py_result :=
  match PyDict.get "role" msg with
  | None => Value (str_title py "unknown")
  | Some (VStr r) => Value (str_title py r)
  | Some VNone => Raise "'NoneType' object has no attribute 'title'"
  | Some (VOther r) => title_of_other py r
  end.

(** [msg.get("content", "")[:100]] *)
Definition content_of (py : python) (msg : message) : py_result :=
  match PyDict.get "content" msg with
  | None => Value (take_chars 100 "")
  | Some (VStr c) => Value (take_chars 100 c)
  | Some VNone => Raise "'NoneType' object is not subscriptable"
  | Some (VOther r) => slice_of_other py 100 r
  end.

Definition history_line (i : nat) (role content : string) : string :=
  py_str_nat i ++ ". **" ++ role ++ "**: " ++ content ++ "..." ++ nl.

(** The [for i, msg in enumerate(..., 1)] loop, from index [i] on. *)
Fixpoint history_loop (py : python) (i : nat) (msgs : list message) (result : string)
  : py_result :=
  match msgs with
  | [] => Value result
  | msg :: r =>
      match role_of py msg with
      | Raise e => Raise e
      | Value role =>
          match content_of py msg with
          | Raise e => Raise e
          | Value content => history_loop py (S i) r (result ++ history_line i role content)
          end
      end
  end.

Definition history_header (py : python) (s : State) : string :=
  "🔄 **Swarm Conversation State**" ++ nl ++ nl
  ++ "**Current Agent**: " ++ str_of_current (current_agent s) ++ nl
  ++ "**Context Variables**: " ++ str_of_dict py (context_variables s) ++ nl
  ++ "**Message Count**: " ++ py_str_nat (length (conversation_history s)) ++ nl ++ nl
  ++ "**Recent Messages**:" ++ nl.

Definition get_conversation_history_handler (py : python) (s : State) : py_result :=
  match conversation_history s with
  | [] => Value no_history_text
  | _ :: _ =>
      history_loop py 1 (last_n 5 (conversation_history s)) (history_header py s)
  end.

(** ** [list_tools] *)

Record tool_property := {
  prop_name : string;
  prop_type : string;
  prop_description : option string;
  prop_default : option string
}.

(** One entry of the tool table; [tool_required] is empty where the schema
    has no [required] member. *)
Record tool := {
  tool_name : string;
  tool_description : string;
  tool_properties : list tool_property;
  tool_required : list string
}.

Definition list_tools : list tool :=
  [ {| tool_name := "create_agent";
       tool_description := "Create a new Swarm agent with transfer capabilities";
       tool_properties :=
         [ {| prop_name := "name"; prop_type := "string";
              prop_description := Some "Agent name"; prop_default := None |};
           {| prop_name := "instructions"; prop_type := "string";
              prop_description := Some "Agent instructions (include transfer conditions)";
              prop_default := None |};
           {| prop_name := "model"; prop_type := "string";
              prop_description := None;
              prop_default := Some "claude-3-5-sonnet-20241022" |} ];
       tool_required := ["name"; "instructions"] |};
    {| tool_name := "chat_with_swarm";
       tool_description := "Chat using Claude Swarm with automatic agent coordination";
       tool_properties :=
         [ {| prop_name := "message"; prop_type := "string";
              prop_description := Some "Your message"; prop_default := None |};
           {| prop_name := "agent_name"; prop_type := "string";
              prop_description := Some "Starting agent (optional)";
              prop_default := None |} ];
       tool_required := ["message"] |};
    {| tool_name := "create_finance_team";
       tool_description := "Create coordinated finance team with Swarm handoffs";
       tool_properties :=
         [ {| prop_name := "company_name"; prop_type := "string";
              prop_description := None; prop_default := Some "Investment Firm" |} ];
       tool_required := [] |};
    {| tool_name := "get_conversation_history";
       tool_description := "View Swarm conversation state and agent transfers";
       tool_properties := [];
       tool_required := [] |};
    {| tool_name := "list_agents";
       tool_description := "List all Swarm agents and their transfer functions";
       tool_properties := [];
       tool_required := [] |} ].

(** ** [call_tool] *)

Definition no_agents_text : string := "📝 No Swarm agents found.".

Definition list_agents_entry (current : option string) (kv : string * ClaudeAgent) : string :=
  let transfer_count := length (functions (snd kv)) in
  let current_marker :=
    match current with
    | Some c => if String.eqb (fst kv) c then "▶️" else "🤖"
    | None => "🤖"
    end in
  current_marker ++ " **" ++ fst kv ++ "** (" ++ py_str_nat transfer_count
  ++ " transfer functions)" ++ nl
  ++ "   Instructions: " ++ take_chars 80 (instructions (snd kv)) ++ "..." ++ nl ++ nl.

(** The [list_agents] branch. *)
Definition list_agents_text (s : State) : string :=
  match agents s with
  | [] => no_agents_text
  | _ :: _ =>
      fold_left (fun result kv => result ++ list_agents_entry (current_agent s) kv)
        (agents s)
        ("🔄 **Swarm Agents** (" ++ py_str_nat (length (agents s)) ++ " total):" ++ nl ++ nl)
  end.

Definition unknown_tool_text (tool_ : string) : string := "❌ Unknown tool: " ++ tool_.

Definition tool_error_text (tool_ e : string) : string :=
  "❌ Error in " ++ tool_ ++ ": " ++ e.

(** The text of the single [{"type": "text", "text": result}] item returned,
    and the state after the request.  [swarm_client_run] is what the
    collaborator does on this request.  Of the handlers only the history one
    can raise into the [except] branch, which prints the error message the
    way the chat handler prints its own, as the bare text. *)
Definition call_tool (py : python) (swarm_client_run : collaborator)
  (name_ : string) (arguments : dict string) (s : State) : string * State :=
  if String.eqb name_ "create_agent" then create_agent_handler arguments s
  else if String.eqb name_ "chat_with_swarm"
  then chat_with_swarm_handler swarm_client_run arguments s
  else if String.eqb name_ "create_finance_team"
  then create_finance_team_handler arguments s
  else if String.eqb name_ "get_conversation_history"
  then match get_conversation_history_handler py s with
       | Value result => (result, s)
       | Raise e =>
           let error_msg := tool_error_text name_ e in
           (error_msg, print s (LogSwarmError error_msg))
       end
  else if String.eqb name_ "list_agents" then (list_agents_text s, s)
  else (unknown_tool_text name_, s).

(** ** The serving process

    [main] loads the registry and then serves requests one at a time.  A
    restart begins again from fresh globals over the file as it is. *)

Definition restart (s : State) : State := load_agents (initial_state (AGENTS_FILE s)).

Inductive event :=
| Request (swarm_client_run : collaborator) (name_ : string) (arguments : dict string)
| Restart.

Definition step (py : python) (s : State) (e : event) : State :=
  match e with
  | Request run name_ arguments => snd (call_tool py run name_ arguments s)
  | Restart => restart s
  end.

(** The state after starting on [disk] and going through [events]. *)
Definition serve (py : python) (disk : storage) (events : list event) : State :=
  fold_left (step py) events (load_agents (initial_state disk)).

(** ** Invariants *)

(** The registry as the data model wants it: distinct keys, each the name of
    its record, and relations that a rebuild would leave as they are. *)
Definition registry_ok (ags : dict ClaudeAgent) : Prop :=
  PyDict.wf ags /\ keys_are_names ags /\ setup_transfer_functions ags = ags.

(** A file the server can start from without breaking [registry_ok]: any
    content but a JSON object, or an object written from such a registry. *)
Definition disk_ok (f : file) : Prop :=
  match f with
  | Document (JObj entries) =>
      exists ags, PyDict.wf ags /\ keys_are_names ags /\ entries = map stored_entry ags
  | _ => True
  end.

(** The file holds the registry that is in memory; a file that holds no
    object goes with the empty registry. *)
Definition file_matches (s : State) : Prop :=
  match content (AGENTS_FILE s) with
  | Document (JObj entries) => entries = map stored_entry (agents s)
  | _ => agents s = []
  end.

Definition created_reply (n : string) : string :=
  "✅ Created Swarm agent '" ++ n ++ "' with transfer capabilities!".

(** A python with simple stand-ins for the open primitives, for the
    examples. *)
Definition py0 : python :=
  {| str_title := fun x => x;
     str_of_dict := fun _ => "{}";
     title_of_other := fun r => Raise "no title";
     slice_of_other := fun _ r => Value r |}.

(** What every state of a served process satisfies (see [serve]). *)
Definition served_ok (s : State) : Prop :=
  registry_ok (agents s)
  /\ disk_ok (content (AGENTS_FILE s))
  /\ (writable (AGENTS_FILE s) = true -> file_matches s).

(** Two agents created one after the other, then a restart. *)
Definition events_AB : list event :=
  [ Request silent_run "create_agent" [("name", "A"); ("instructions", "Be helpful")];
    Request silent_run "create_agent" [("name", "B"); ("instructions", "Be helpful")];
    Restart ].

Definition args_new_C : dict string := [("name", "C"); ("instructions", "Count")].

(** Lookups in the tool table. *)
Definition tool_names : list string := map tool_name list_tools.

Definition find_tool (t : string) : option tool :=
  find (fun x => String.eqb (tool_name x) t) list_tools.

Definition declared_default (t p : string) : option string :=
  match find_tool t with
  | Some x =>
      match find (fun q => String.eqb (prop_name q) p) (tool_properties x) with
      | Some q => prop_default q
      | None => None
      end
  | None => None
  end.

Definition required_of (t : string) : list string :=
  match find_tool t with
  | Some x => tool_required x
  | None => []
  end.

(** A message member that is missing or a string. *)
Definition plain (o : option value) : Prop :=
  o = None \/ exists t, o = Some (VStr t).

Definition plain_message (msg : message) : Prop :=
  plain (PyDict.get "role" msg) /\ plain (PyDict.get "content" msg).

(** What the history shows of a plain message. *)
Definition shown_role (py : python) (msg : message) : string :=
  str_title py (match PyDict.get "role" msg with Some (VStr r) => r | _ => "unknown" end).

Definition shown_content (msg : message) : string :=
  take_chars 100 (match PyDict.get "content" msg with Some (VStr c) => c | _ => "" end).

Definition numbered (A : Type) (first : nat) (l : list A) : list (nat * A) :=
  combine (seq first (length l)) l.

(** A transcript of seven messages; the second has no content, as an
    assistant message that only hands off. *)
Definition long_transcript : list message :=
  [ user_message_of "one";
    [("role", VStr "assistant"); ("content", VNone)];
    user_message_of "three"; user_message_of "four"; user_message_of "five";
    user_message_of "six"; user_message_of "seven" ].

Definition state_long : State :=
  {| agents := registry_AB; conversation_history := long_transcript;
     current_agent := Some "B"; context_variables := [];
     AGENTS_FILE := disk0; stderr := []; swarm_calls := [] |}.

Definition state_recent_none : State :=
  {| agents := registry_AB;
     conversation_history :=
       [user_message_of "one"; [("role", VStr "assistant"); ("content", VNone)]];
     current_agent := Some "B"; context_variables := [];
     AGENTS_FILE := disk0; stderr := []; swarm_calls := [] |}.

(** The entries of a registry other than the one stored under [k]. *)
Definition others (k : string) (ags : dict ClaudeAgent) : dict ClaudeAgent :=
  filter (fun kv => negb (String.eqb (fst kv) k)) ags.

(** Every agent has one transfer function per other entry, in registry
    order, carrying that entry's key and its record's name. *)
Definition relations_complete (ags : dict ClaudeAgent) : Prop :=
  forall k a, In (k, a) ags ->
    map tf_target (functions a) = PyDict.keys (others k ags)
    /\ transferTargets a = map name (PyDict.values (others k ags)).

(** A stored record on which [data["name"]], [data["model"]] or
    [data["instructions"]] raises: not an object, or an object that lacks
    one of the three members. *)
Definition subscript_raises (data : json) : Prop :=
  match data with
  | JObj o =>
      PyDict.get "name" o = None \/ PyDict.get "model" o = None
      \/ PyDict.get "instructions" o = None
  | _ => True
  end.

(** A stored record that is an object with string members name, model and
    instructions, and the registry entry the loop makes of it. *)
Definition stored_as (kv : string * json) (ka : string * ClaudeAgent) : Prop :=
  fst ka = fst kv
  /\ functions (snd ka) = []
  /\ exists o, snd kv = JObj o
               /\ PyDict.get "name" o = Some (JStr (name (snd ka)))
               /\ PyDict.get "model" o = Some (JStr (model (snd ka)))
               /\ PyDict.get "instructions" o = Some (JStr (instructions (snd ka))).

(** A file with two good records followed by one that lacks members. *)
Definition disk_AB_then_bad : storage :=
  {| content := Document (JObj [("A", agent_entry (mk_agent "A"));
                                ("B", agent_entry (mk_agent "B"));
                                ("C", JObj [("name", JStr "C")])]);
     writable := true |}.

(** Agents A and B, A active, with two context values set. *)
Definition state_AB_ctx : State :=
  {| agents := registry_AB; conversation_history := [];
     current_agent := Some "A";
     context_variables := [("a", VStr "old"); ("k", VStr "stale")];
     AGENTS_FILE := disk0; stderr := []; swarm_calls := [] |}.

(** A collaborator that returns no messages and hands over to agent B. *)
Definition handoff_run : collaborator :=
  fun _ _ _ => Returned {| messages := []; agent := mk_agent "B";
                           response_context_variables := [("k", VStr "v")] |}.

(** * Properties *)

Open Scope list_scope.

(** ** Dictionary facts *)

Module PyDictFacts.
Section Facts.
Variable V : Type.
Implicit Types (d : dict V) (k : string) (v : V).

Lemma get_None_not_in d k : PyDict.get k d = None <-> ~ In k (PyDict.keys d).
Proof.
  induction d as [|[k' v'] r IH]; simpl.
  - tauto.
  - destruct (String.eqb_spec k' k) as [->|Hne].
    + split; [discriminate | intros H; exfalso; apply H; now left].
    + rewrite IH. split; intros H; [intros [?|?]; auto | auto].
Qed.

Lemma mem_true_in d k : PyDict.mem k d = true <-> In k (PyDict.keys d).
Proof.
  unfold PyDict.mem. destruct (PyDict.get k d) eqn:E.
  - split; [intros _ | reflexivity].
    destruct (in_dec string_dec k (PyDict.keys d)) as [Hin|Hn]; [assumption|].
    apply get_None_not_in in Hn. congruence.
  - apply get_None_not_in in E. split; [discriminate | contradiction].
Qed.

Lemma mem_false_not_in d k : PyDict.mem k d = false <-> ~ In k (PyDict.keys d).
Proof.
  rewrite <- mem_true_in. destruct (PyDict.mem k d); split; congruence.
Qed.

Lemma set_fresh d k v : ~ In k (PyDict.keys d) -> PyDict.set k v d = (d ++ [(k, v)])%list.
Proof.
  induction d as [|[k' v'] r IH]; simpl; intros H.
  - reflexivity.
  - destruct (String.eqb_spec k' k) as [->|Hne].
    + exfalso. apply H. now left.
    + rewrite IH; [reflexivity | tauto].
Qed.

Lemma keys_set d k v :
  PyDict.keys (PyDict.set k v d) =
  if PyDict.mem k d then PyDict.keys d else (PyDict.keys d ++ [k])%list.
Proof.
  induction d as [|[k' v'] r IH]; simpl.
  - reflexivity.
  - unfold PyDict.mem in *. simpl.
    destruct (String.eqb_spec k' k) as [->|Hne]; simpl.
    + reflexivity.
    + rewrite IH. destruct (PyDict.get k r); reflexivity.
Qed.

Lemma get_set_same d k v : PyDict.get k (PyDict.set k v d) = Some v.
Proof.
  induction d as [|[k' v'] r IH]; simpl.
  - now rewrite String.eqb_refl.
  - destruct (String.eqb_spec k' k) as [->|Hne]; simpl.
    + now rewrite String.eqb_refl.
    + destruct (String.eqb_spec k' k); [contradiction | exact IH].
Qed.

Lemma get_set_other d k k' v :
  k' <> k -> PyDict.get k' (PyDict.set k v d) = PyDict.get k' d.
Proof.
  intros Hne. induction d as [|[k1 v1] r IH]; simpl.
  - destruct (String.eqb_spec k k'); [congruence | reflexivity].
  - destruct (String.eqb_spec k1 k) as [->|H1]; simpl.
    + destruct (String.eqb_spec k k'); [congruence | reflexivity].
    + destruct (String.eqb_spec k1 k'); [reflexivity | exact IH].
Qed.

Lemma get_in d k v : PyDict.get k d = Some v -> In (k, v) d.
Proof.
  induction d as [|[k' v'] r IH]; simpl; [discriminate|].
  destruct (String.eqb_spec k' k) as [->|Hne].
  - intros [= ->]. now left.
  - intros H. right. auto.
Qed.

Lemma in_get d k v : PyDict.wf d -> In (k, v) d -> PyDict.get k d = Some v.
Proof.
  unfold PyDict.wf. induction d as [|[k' v'] r IH]; simpl; [tauto|].
  intros Hnd [H|H].
  - injection H as -> ->. now rewrite String.eqb_refl.
  - inversion Hnd as [|? ? Hnotin Hnd']; subst.
    destruct (String.eqb_spec k' k) as [->|Hne].
    + exfalso. apply Hnotin. change (In (fst (k, v)) (map fst r)). now apply in_map.
    + auto.
Qed.
(** [update] is a merge: keys of [d2] override, the other keys of [d] stay. *)
Lemma get_update d2 : forall d k,
  PyDict.wf d2 ->
  PyDict.get k (PyDict.update d d2)
  = match PyDict.get k d2 with Some v => Some v | None => PyDict.get k d end.
Proof.
  unfold PyDict.update, PyDict.wf.
  induction d2 as [|[k1 v1] r IH]; intros d k Hnd; simpl; [reflexivity|].
  inversion Hnd as [|? ? Hnotin Hnd']; subst.
  rewrite IH by assumption.
  destruct (String.eqb_spec k1 k) as [->|Hne].
  - apply get_None_not_in in Hnotin. rewrite Hnotin. apply get_set_same.
  - destruct (PyDict.get k r); [reflexivity|].
    apply get_set_other. congruence.
Qed.
End Facts.
End PyDictFacts.

(** ** Relation builder *)

Lemma keys_build_transfer_functions (ags : dict ClaudeAgent) :
  PyDict.keys (build_transfer_functions ags) = PyDict.keys ags.
Proof.
  unfold build_transfer_functions, PyDict.keys. rewrite map_map. reflexivity.
Qed.

Lemma keys_setup_transfer_functions (ags : dict ClaudeAgent) :
  PyDict.keys (setup_transfer_functions ags) = PyDict.keys ags.
Proof.
  unfold setup_transfer_functions, PyDict.keys. rewrite map_map. reflexivity.
Qed.

Lemma length_setup_transfer_functions (ags : dict ClaudeAgent) :
  length (setup_transfer_functions ags) = length ags.
Proof. unfold setup_transfer_functions. apply length_map. Qed.

(** The functions handed to [k] point, in order, at the other keys. *)
Lemma functions_for_targets (k : string) (ags : dict ClaudeAgent) :
  map tf_target (functions_for k (build_transfer_functions ags))
  = other_names k (PyDict.keys ags).
Proof.
  induction ags as [|[k' a'] r IH]; simpl; [reflexivity|].
  destruct (negb (String.eqb k' k)); simpl; now rewrite IH.
Qed.

(** When keys are names, the name a function carries is the key it points at. *)
Lemma functions_for_target_names (k : string) (ags : dict ClaudeAgent) :
  keys_are_names ags ->
  map tf_target_name (functions_for k (build_transfer_functions ags))
  = map tf_target (functions_for k (build_transfer_functions ags)).
Proof.
  induction ags as [|[k' a'] r IH]; simpl; intros Hinv; [reflexivity|].
  assert (Hr : keys_are_names r) by (intros k1 a1 H1; apply Hinv; now right).
  assert (Hk : name a' = k') by (apply Hinv; now left).
  destruct (negb (String.eqb k' k)); simpl; rewrite IH by assumption;
    [now rewrite Hk | reflexivity].
Qed.

Lemma names_of_values (ags : dict ClaudeAgent) :
  keys_are_names ags -> map name (PyDict.values ags) = PyDict.keys ags.
Proof.
  induction ags as [|[k a] r IH]; simpl; intros Hinv; [reflexivity|].
  rewrite IH by (intros k1 a1 H1; apply Hinv; now right).
  f_equal. apply Hinv. now left.
Qed.

Lemma other_names_not_self (k : string) (l : list string) : ~ In k (other_names k l).
Proof.
  unfold other_names. intros H. apply filter_In in H as [_ H].
  now rewrite String.eqb_refl in H.
Qed.

Lemma in_setup_transfer_functions (ags : dict ClaudeAgent) k a :
  In (k, a) (setup_transfer_functions ags) ->
  exists a0, In (k, a0) ags /\
    a = with_functions a0 (functions_for k (build_transfer_functions ags)).
Proof.
  unfold setup_transfer_functions. intros H.
  apply in_map_iff in H as [[k0 a0] [Heq Hin]]. simpl in Heq.
  injection Heq as <- <-. now exists a0.
Qed.

(** The rebuild reads names only: functions already attached do not matter,
    so rebuilding twice is rebuilding once. *)
Lemma build_transfer_functions_setup (ags : dict ClaudeAgent) :
  build_transfer_functions (setup_transfer_functions ags) = build_transfer_functions ags.
Proof.
  unfold build_transfer_functions, setup_transfer_functions.
  rewrite map_map. apply map_ext. intros [k a]. reflexivity.
Qed.

Lemma setup_transfer_functions_idempotent (ags : dict ClaudeAgent) :
  setup_transfer_functions (setup_transfer_functions ags) = setup_transfer_functions ags.
Proof.
  unfold setup_transfer_functions at 1. rewrite build_transfer_functions_setup.
  unfold setup_transfer_functions. rewrite map_map. apply map_ext.
  intros [k a]. reflexivity.
Qed.


(** ** [create_agent_handler] *)

Lemma str_truthy_false (x : string) : str_truthy x = false <-> x = "".
Proof.
  unfold str_truthy. destruct (String.eqb_spec x ""); simpl; split; congruence.
Qed.

Lemma str_truthy_true (x : string) : str_truthy x = true <-> x <> "".
Proof.
  unfold str_truthy. destruct (String.eqb_spec x ""); simpl; split; congruence.
Qed.

(** C7, as stated, at a registered name with no instructions: the reply is
    the validation failure, not the duplicate-name failure. *)
Lemma create_agent_duplicate_counterexample :
  ~ (PyDict.mem "A" (agents state_AB) = true ->
     fst (create_agent_handler [("name", "A")] state_AB) = duplicate_failure "A").
Proof.
  intros H. specialize (H eq_refl). vm_compute in H. discriminate H.
Qed.

(** C7 (amended): an empty name or empty instructions gives the validation
    failure; a non-empty name already in the registry, with non-empty
    instructions, gives the duplicate-name failure; in both cases, and
    whenever the name is already registered, the whole state (registry
    records, membership and order included) is left as it was. *)
Theorem create_agent_rejects :
  forall (args : dict string) (s : State),
    let n := args_get "name" "" args in
    let i := args_get "instructions" "" args in
    (n = "" \/ i = "" -> create_agent_handler args s = (validation_failure, s))
    /\ (n <> "" -> i <> "" -> PyDict.mem n (agents s) = true ->
        create_agent_handler args s = (duplicate_failure n, s))
    /\ (PyDict.mem n (agents s) = true -> snd (create_agent_handler args s) = s).
Proof.
  intros args s n i. unfold create_agent_handler. fold n. fold i.
  destruct (str_truthy n) eqn:En, (str_truthy i) eqn:Ei; simpl.
  - apply str_truthy_true in En, Ei.
    split; [intros [?|?]; contradiction|].
    split; intros; destruct (PyDict.mem n (agents s)); try discriminate; reflexivity.
  - apply str_truthy_false in Ei.
    split; [reflexivity|]. split; [intros; contradiction | reflexivity].
  - apply str_truthy_false in En.
    split; [reflexivity|]. split; [intros; contradiction | reflexivity].
  - apply str_truthy_false in En.
    split; [reflexivity|]. split; [intros; contradiction | reflexivity].
Qed.

Lemma create_agent_rejects_witness :
  create_agent_handler [("name", "A"); ("instructions", "again")] state_AB
  = (duplicate_failure "A", state_AB)
  /\ create_agent_handler [("name", "C")] state_AB = (validation_failure, state_AB).
Proof.
  split.
  - apply (proj1 (proj2 (create_agent_rejects
             [("name", "A"); ("instructions", "again")] state_AB)));
      [discriminate | discriminate | reflexivity].
  - apply (proj1 (create_agent_rejects [("name", "C")] state_AB)).
    right. reflexivity.
Defined.

(** ** [chat_with_swarm_handler] *)

(** C8: with an empty (or missing) message the handler returns its failure
    text and the state it was given: transcript, active agent and context
    values are untouched and no call to the collaborator is recorded. *)
Theorem chat_empty_message_no_effect :
  forall (run : collaborator) (args : dict string) (s : State),
    args_get "message" "" args = "" ->
    chat_with_swarm_handler run args s = ("❌ Message is required", s)
    /\ session (snd (chat_with_swarm_handler run args s)) = session s
    /\ swarm_calls (snd (chat_with_swarm_handler run args s)) = swarm_calls s.
Proof.
  intros run args s Hm. unfold chat_with_swarm_handler. rewrite Hm. simpl.
  repeat split.
Qed.

Lemma chat_empty_message_no_effect_witness :
  chat_with_swarm_handler silent_run [("message", ""); ("agent_name", "A")] state_AB
  = ("❌ Message is required", state_AB).
Proof.
  apply (proj1 (chat_empty_message_no_effect silent_run
                  [("message", ""); ("agent_name", "A")] state_AB eq_refl)).
Defined.

Lemma starting_agent_nonempty (args : dict string) (s : State) k a :
  starting_agent_of args s = Some (k, a) -> PyDict.nonempty (agents s) = true.
Proof.
  unfold starting_agent_of. destruct (agents s); [discriminate | reflexivity].
Qed.

(** C2, as stated, on a collaborator that raises: the failure text is
    returned but the transcript has grown by the user message. *)
Lemma chat_failure_counterexample :
  fst (chat_with_swarm_handler failing_run [("message", "hi")] state_AB)
  = swarm_error "connection refused"
  /\ session (snd (chat_with_swarm_handler failing_run [("message", "hi")] state_AB))
     <> session state_AB.
Proof.
  split; [reflexivity|]. vm_compute. discriminate.
Qed.

(** C2 (amended): when the collaborator call raises, the handler returns the
    failure text built from the error, the active agent, the context values
    and the registry are what they were, and the transcript is the previous
    transcript followed by the user message. *)
Theorem chat_failure_keeps_user_message :
  forall (run : collaborator) (args : dict string) (s : State)
         (k : string) (a : ClaudeAgent) (e : string),
    let m := args_get "message" "" args in
    m <> "" ->
    starting_agent_of args s = Some (k, a) ->
    run a (conversation_history s ++ [user_message_of m])%list (context_variables s) = Raised e ->
    let r := chat_with_swarm_handler run args s in
    fst r = swarm_error e
    /\ conversation_history (snd r) = (conversation_history s ++ [user_message_of m])%list
    /\ current_agent (snd r) = current_agent s
    /\ context_variables (snd r) = context_variables s
    /\ agents (snd r) = agents s
    /\ AGENTS_FILE (snd r) = AGENTS_FILE s.
Proof.
  intros run args s k a e m Hm Hstart Hrun r. subst r.
  unfold chat_with_swarm_handler. fold m.
  apply str_truthy_true in Hm. rewrite Hm.
  rewrite (starting_agent_nonempty _ _ Hstart), Hstart. simpl.
  rewrite Hrun. simpl. repeat split.
Qed.

Lemma chat_failure_keeps_user_message_witness :
  conversation_history
    (snd (chat_with_swarm_handler failing_run [("message", "hi")] state_AB))
  = [user_message_of "hi"].
Proof.
  refine (proj1 (proj2 (chat_failure_keeps_user_message failing_run
            [("message", "hi")] state_AB (k := "B")
            (a := with_functions (mk_agent "B") [create_transfer "A" (mk_agent "A")])
            (e := "connection refused") _ _ _))).
  - discriminate.
  - reflexivity.
  - reflexivity.
Defined.

(** What the handler does once the message is non-empty and a starting
    agent has been found: one call to the collaborator, on the transcript
    extended by the user message. *)
Lemma chat_calls_collaborator (run : collaborator) (args : dict string) (s : State) k a :
  args_get "message" "" args <> "" ->
  starting_agent_of args s = Some (k, a) ->
  swarm_calls (snd (chat_with_swarm_handler run args s))
  = (swarm_calls s ++
     [{| call_agent := a;
         call_messages :=
           conversation_history s ++ [user_message_of (args_get "message" "" args)];
         call_context := context_variables s |}])%list.
Proof.
  intros Hm Hstart. unfold chat_with_swarm_handler.
  apply str_truthy_true in Hm. rewrite Hm.
  rewrite (starting_agent_nonempty _ _ Hstart), Hstart. simpl.
  destruct (run a _ _); reflexivity.
Qed.

(** C3, as stated, with an explicit [agent_name] that is not registered
    while agent B is active: the spec's order picks B, the handler calls the
    collaborator with the first registered agent, A. *)
Lemma chat_starting_agent_counterexample :
  option_map fst (spec_starting_agent [("message", "hi"); ("agent_name", "Z")] state_AB)
  = Some "B"
  /\ map (fun c => name (call_agent c))
       (swarm_calls (snd (chat_with_swarm_handler failing_run
                            [("message", "hi"); ("agent_name", "Z")] state_AB)))
     = ["A"].
Proof. split; reflexivity. Qed.

(** C3 (amended): on a non-empty registry and a non-empty message the
    collaborator is called once, with the starting agent resolved thus:
    an [agent_name] argument that is non-empty and registered selects that
    agent; an [agent_name] argument that is empty or not registered selects
    the first registered agent, whatever the active agent is; without an
    [agent_name] argument the active agent is selected when it is set,
    non-empty and registered, and the first registered agent otherwise. *)
Theorem chat_starting_agent_resolution :
  forall (run : collaborator) (args : dict string) (s : State)
         (k0 : string) (a0 : ClaudeAgent) (rest : dict ClaudeAgent),
    args_get "message" "" args <> "" ->
    agents s = (k0, a0) :: rest ->
    exists k a,
      starting_agent_of args s = Some (k, a)
      /\ map call_agent (swarm_calls (snd (chat_with_swarm_handler run args s)))
         = (map call_agent (swarm_calls s) ++ [a])%list
      /\ (forall n a', PyDict.get "agent_name" args = Some n -> n <> "" ->
            PyDict.get n (agents s) = Some a' -> (k, a) = (n, a'))
      /\ (forall n, PyDict.get "agent_name" args = Some n ->
            n = "" \/ PyDict.get n (agents s) = None -> (k, a) = (k0, a0))
      /\ (forall c a', PyDict.get "agent_name" args = None ->
            current_agent s = Some c -> c <> "" ->
            PyDict.get c (agents s) = Some a' -> (k, a) = (c, a'))
      /\ (PyDict.get "agent_name" args = None ->
            current_agent s = None \/ current_agent s = Some ""
            \/ (exists c, current_agent s = Some c /\ PyDict.get c (agents s) = None) ->
            (k, a) = (k0, a0)).
Proof.
  intros run args s k0 a0 rest Hm Hags.
  destruct (starting_agent_of args s) as [[k a]|] eqn:Hstart;
    [| unfold starting_agent_of in Hstart; rewrite Hags in Hstart;
       destruct (requested_agent_name args s) as [n|];
       [destruct (str_truthy n); [destruct (PyDict.get n _)|]|]; discriminate].
  exists k, a. split; [reflexivity|]. split.
  { rewrite (chat_calls_collaborator run _ _ Hm Hstart), map_app. reflexivity. }
  unfold starting_agent_of, requested_agent_name in Hstart. rewrite Hags in Hstart.
  rewrite <- Hags in Hstart.
  repeat split.
  - intros n a' Hn Hne Hget. rewrite Hn in Hstart.
    apply str_truthy_true in Hne. rewrite Hne, Hget in Hstart. congruence.
  - intros n Hn Hor. rewrite Hn in Hstart.
    destruct Hor as [->|Hnone]; simpl in Hstart; [congruence|].
    rewrite Hnone in Hstart. destruct (str_truthy n); congruence.
  - intros c a' Hn Hc Hne Hget. rewrite Hn, Hc in Hstart.
    apply str_truthy_true in Hne. rewrite Hne, Hget in Hstart. congruence.
  - intros Hn Hor. rewrite Hn in Hstart.
    destruct Hor as [Hc|[Hc|[c [Hc Hnone]]]]; rewrite Hc in Hstart; simpl in Hstart;
      [congruence | congruence |].
    rewrite Hnone in Hstart. destruct (str_truthy c); congruence.
Qed.

Lemma chat_starting_agent_resolution_witness :
  exists k a,
    starting_agent_of [("message", "hi"); ("agent_name", "Z")] state_AB = Some (k, a)
    /\ (k, a) = ("A", with_functions (mk_agent "A") [create_transfer "B" (mk_agent "B")]).
Proof.
  destruct (chat_starting_agent_resolution failing_run
              [("message", "hi"); ("agent_name", "Z")] state_AB
              (k0 := "A")
              (a0 := with_functions (mk_agent "A") [create_transfer "B" (mk_agent "B")])
              (rest := [("B", with_functions (mk_agent "B")
                                [create_transfer "A" (mk_agent "A")])]))
    as [k [a [Hs [_ [_ [H2 _]]]]]].
  - discriminate.
  - reflexivity.
  - exists k, a. split; [exact Hs|].
    apply (H2 "Z" eq_refl). right. reflexivity.
Defined.

(** Where the spec's order and the handler agree: no [agent_name] argument,
    or one that is registered, on a registry without an empty key. *)
Lemma starting_agent_agrees_with_spec (args : dict string) (s : State) :
  PyDict.get "" (agents s) = None ->
  (PyDict.get "agent_name" args = None
   \/ exists n a, PyDict.get "agent_name" args = Some n /\ PyDict.get n (agents s) = Some a) ->
  starting_agent_of args s = spec_starting_agent args s.
Proof.
  intros Hempty Hcase.
  assert (Hk : forall n a, PyDict.get n (agents s) = Some a -> str_truthy n = true).
  { intros n a Hget. apply str_truthy_true. intros ->. congruence. }
  unfold starting_agent_of, spec_starting_agent, requested_agent_name, spec_lookup.
  destruct Hcase as [Hn | [n [a [Hn Hget]]]]; rewrite Hn.
  - destruct (current_agent s) as [c|].
    + destruct (PyDict.get c (agents s)) as [a|] eqn:Hget.
      * rewrite (Hk _ _ Hget).
        destruct (agents s) as [|[k0 a0] r]; [discriminate | reflexivity].
      * destruct (agents s) as [|[k0 a0] r]; [reflexivity|].
        destruct (str_truthy c); reflexivity.
    + destruct (agents s) as [|[k0 a0] r]; reflexivity.
  - rewrite Hget, (Hk _ _ Hget).
    destruct (agents s) as [|[k0 a0] r]; [discriminate | reflexivity].
Qed.


(** ** Persistence *)

Lemma fold_set_fresh (V W : Type) (f : string * W -> V) (l : list (string * W)) :
  forall acc : dict V,
    NoDup (PyDict.keys acc ++ map fst l) ->
    fold_left (fun acc kv => PyDict.set (fst kv) (f kv) acc) l acc
    = (acc ++ map (fun kv => (fst kv, f kv)) l)%list.
Proof.
  induction l as [|[k w] r IH]; intros acc Hnd; simpl.
  - now rewrite app_nil_r.
  - simpl in Hnd. rewrite PyDictFacts.set_fresh.
    + rewrite IH.
      * now rewrite <- app_assoc.
      * unfold PyDict.keys in *. rewrite map_app. simpl. rewrite <- app_assoc. exact Hnd.
    + apply NoDup_remove_2 in Hnd. intros Hin. apply Hnd. apply in_or_app. now left.
Qed.

Lemma agent_data_of_wf (ags : dict ClaudeAgent) :
  PyDict.wf ags -> agent_data_of ags = map stored_entry ags.
Proof.
  intros Hwf. unfold agent_data_of.
  exact (fold_set_fresh (fun kv => agent_entry (snd kv)) ags [] Hwf).
Qed.

Lemma agent_of_json_entry (a : ClaudeAgent) :
  agent_of_json (agent_entry a) = Some (with_functions a []).
Proof. reflexivity. Qed.

Lemma load_loop_stored (ags : dict ClaudeAgent) :
  forall acc : dict ClaudeAgent,
    NoDup (PyDict.keys acc ++ PyDict.keys ags) ->
    load_loop (map stored_entry ags) acc
    = ((acc ++ map (fun kv => (fst kv, with_functions (snd kv) [])) ags)%list, true).
Proof.
  induction ags as [|[k a] r IH]; intros acc Hnd; simpl.
  - now rewrite app_nil_r.
  - simpl in Hnd. rewrite PyDictFacts.set_fresh.
    + rewrite IH.
      * now rewrite <- app_assoc.
      * unfold PyDict.keys in *. rewrite map_app. simpl. rewrite <- app_assoc. exact Hnd.
    + apply NoDup_remove_2 in Hnd. intros Hin. apply Hnd. apply in_or_app. now left.
Qed.

(** The rebuild does not look at the functions an agent already has. *)
Lemma setup_transfer_functions_stripped (ags : dict ClaudeAgent) :
  setup_transfer_functions (map (fun kv => (fst kv, with_functions (snd kv) [])) ags)
  = setup_transfer_functions ags.
Proof.
  unfold setup_transfer_functions, build_transfer_functions.
  rewrite !map_map. simpl. apply map_ext. intros [k a]. reflexivity.
Qed.

Lemma triples_setup_transfer_functions (ags : dict ClaudeAgent) :
  map triple (PyDict.values (setup_transfer_functions ags)) = map triple (PyDict.values ags).
Proof.
  unfold setup_transfer_functions, PyDict.values. rewrite !map_map.
  apply map_ext. intros [k a]. reflexivity.
Qed.



(** The loop stops at the first record it cannot build and keeps what it
    has inserted so far. *)
Lemma load_loop_stops (pre post : list (string * json)) (k : string) (bad : json) :
  agent_of_json bad = None ->
  forall (recs acc : dict ClaudeAgent),
    Forall2 (fun kv ka => fst ka = fst kv /\ agent_of_json (snd kv) = Some (snd ka)) pre recs ->
    NoDup (PyDict.keys acc ++ PyDict.keys recs) ->
    load_loop (pre ++ (k, bad) :: post) acc = ((acc ++ recs)%list, false).
Proof.
  intros Hbad recs acc Hpre. revert acc.
  induction Hpre as [|[k1 d1] [k2 a2] pre' recs' [Hk Ha] _ IH]; intros acc Hnd; simpl.
  - now rewrite Hbad, app_nil_r.
  - simpl in Hk, Ha. subst k2. rewrite Ha. simpl in Hnd.
    rewrite PyDictFacts.set_fresh.
    + rewrite IH.
      * now rewrite <- app_assoc.
      * unfold PyDict.keys in *. rewrite map_app. simpl. rewrite <- app_assoc. exact Hnd.
    + apply NoDup_remove_2 in Hnd. intros Hin. apply Hnd. apply in_or_app. now left.
Qed.

(** C9, as stated, on a stored object whose second record lacks fields: the
    error is logged, yet the first record stays in the registry. *)
Lemma load_malformed_counterexample :
  stderr (load_agents (initial_state broken_disk)) = [LogLoadError]
  /\ agents (load_agents (initial_state broken_disk)) <> [].
Proof. split; [reflexivity | vm_compute; discriminate]. Qed.


(** C4, as stated, on a process that saves agents A and B over a file
    holding agent A: interrupted after the file has been opened for writing,
    the save leaves a file that is neither the previous snapshot nor the
    new one. *)
Lemma save_interrupted_counterexample :
  content (AGENTS_FILE (save_agents_crashed 1 state_AB_saved_A))
    <> content (AGENTS_FILE state_AB_saved_A)
  /\ content (AGENTS_FILE (save_agents_crashed 1 state_AB_saved_A))
    <> content (AGENTS_FILE (save_agents state_AB_saved_A)).
Proof. split; vm_compute; discriminate. Qed.

(** C4 (amended): a completed save replaces the whole file by the snapshot
    of the current registry, whatever the file held before; nothing of the
    previous content is merged in.  The replacement takes two steps: until
    the file is opened the previous content is intact, between opening and
    dumping the file is empty, after the dump it holds the new snapshot.
    When the file cannot be opened the error is logged and the content is
    left as it was. *)
Theorem save_agents_replaces_whole_file :
  forall s : State,
    (writable (AGENTS_FILE s) = true ->
       content (AGENTS_FILE (save_agents s)) = Document (JObj (agent_data_of (agents s)))
       /\ stderr (save_agents s) = (stderr s ++ [LogSaved (length (agents s))])%list)
    /\ (writable (AGENTS_FILE s) = false ->
          content (AGENTS_FILE (save_agents s)) = content (AGENTS_FILE s)
          /\ stderr (save_agents s) = (stderr s ++ [LogSaveError])%list)
    /\ content (AGENTS_FILE (save_agents_crashed 0 s)) = content (AGENTS_FILE s)
    /\ content (AGENTS_FILE (save_agents_crashed 1 s)) = Garbage ""
    /\ (forall n, 2 <= n ->
          content (AGENTS_FILE (save_agents_crashed n s))
          = Document (JObj (agent_data_of (agents s))))
    /\ agents (save_agents s) = agents s.
Proof.
  intros s. unfold save_agents, save_agents_crashed.
  split; [intros ->; split; reflexivity|].
  split; [intros ->; split; reflexivity|].
  split; [reflexivity|]. split; [reflexivity|]. split.
  - intros [|[|n]] Hn; [lia | lia | destruct n; reflexivity].
  - destruct (writable (AGENTS_FILE s)); reflexivity.
Qed.

Lemma save_agents_replaces_whole_file_witness :
  content (AGENTS_FILE (save_agents state_AB_saved_A))
  = Document (JObj [stored_entry ("A", mk_agent "A"); stored_entry ("B", mk_agent "B")])
  /\ content (AGENTS_FILE (save_agents_crashed 2 state_AB_saved_A))
     = content (AGENTS_FILE (save_agents state_AB_saved_A)).
Proof.
  pose proof (save_agents_replaces_whole_file state_AB_saved_A) as [H1 [_ [_ [_ [H2 _]]]]].
  specialize (H1 eq_refl). destruct H1 as [H1 _].
  specialize (H2 2 (le_n 2)).
  split.
  - exact (eq_trans H1 eq_refl).
  - exact (eq_trans H2 (eq_sym H1)).
Defined.

(** ** [create_finance_team_handler] *)

Lemma get_app_fresh (V : Type) (d : dict V) (k n : string) (v : V) :
  k <> n -> PyDict.get k (d ++ [(n, v)]) = PyDict.get k d.
Proof.
  intros Hne. induction d as [|[k' v'] r IH]; simpl.
  - destruct (String.eqb_spec n k); [congruence | reflexivity].
  - destruct (String.eqb k' k); [reflexivity | exact IH].
Qed.

Lemma get_app_l (V : Type) (d l : dict V) (k : string) (v : V) :
  PyDict.get k d = Some v -> PyDict.get k (d ++ l) = Some v.
Proof.
  induction d as [|[k' v'] r IH]; simpl; [discriminate|].
  destruct (String.eqb k' k); [trivial | exact IH].
Qed.

Lemma get_setup_transfer_functions (ags : dict ClaudeAgent) (k : string) :
  PyDict.get k (setup_transfer_functions ags)
  = option_map (fun a => with_functions a (functions_for k (build_transfer_functions ags)))
      (PyDict.get k ags).
Proof.
  unfold setup_transfer_functions.
  generalize (build_transfer_functions ags) as tfs. intros tfs.
  induction ags as [|[k' a'] r IH]; simpl; [reflexivity|].
  destruct (String.eqb_spec k' k) as [->|Hne]; [reflexivity | exact IH].
Qed.

Lemma agents_save_agents (s : State) : agents (save_agents s) = agents s.
Proof. unfold save_agents. destruct (writable (AGENTS_FILE s)); reflexivity. Qed.

Lemma set_agents_same (s : State) : set_agents s (agents s) = s.
Proof. destruct s; reflexivity. Qed.

Lemma create_missing_spec (specs : dict (string * string)) :
  NoDup (PyDict.keys specs) ->
  forall (ags : dict ClaudeAgent) (created : list string),
    create_missing specs ags created
    = ((ags ++ map team_agent (missing_specs specs ags))%list,
       (created ++ map fst (missing_specs specs ags))%list).
Proof.
  unfold missing_specs.
  induction specs as [|[n [instr mdl]] r IH]; intros Hnd ags created; simpl.
  - now rewrite !app_nil_r.
  - inversion Hnd as [|? ? Hn Hr]; subst.
    destruct (PyDict.mem n ags) eqn:Hmem; simpl.
    + apply IH; assumption.
    + rewrite PyDictFacts.set_fresh by (now apply PyDictFacts.mem_false_not_in).
      rewrite IH by assumption. rewrite <- !app_assoc. simpl.
      assert (Hf : forall ag,
                 filter (fun sp : string * (string * string) =>
                           negb (PyDict.mem (fst sp) (ags ++ [(n, ag)]))) r
                 = filter (fun sp => negb (PyDict.mem (fst sp) ags)) r).
      { intros ag. apply filter_ext_in. intros [k sp] Hin. simpl.
        unfold PyDict.mem. rewrite get_app_fresh; [reflexivity|].
        intros ->. apply Hn. change (In (fst (n, sp)) (map fst r)). now apply in_map. }
      now rewrite Hf.
Qed.

Lemma team_specs_names (c : string) : PyDict.keys (team_specs c) = team_names.
Proof. reflexivity. Qed.

Lemma team_names_nodup : NoDup team_names.
Proof. repeat constructor; simpl; intuition discriminate. Qed.

Lemma missing_specs_names (specs : dict (string * string)) (ags : dict ClaudeAgent) :
  map fst (missing_specs specs ags)
  = filter (fun n => negb (PyDict.mem n ags)) (PyDict.keys specs).
Proof.
  unfold missing_specs. induction specs as [|[n sp] r IH]; simpl; [reflexivity|].
  destruct (negb (PyDict.mem n ags)); simpl; now rewrite IH.
Qed.

(** The handler in closed form: nothing missing, nothing changes; otherwise
    the missing roles are appended, relations rebuilt, the active agent set
    and the registry saved, once. *)
Lemma create_finance_team_result (args : dict string) (s : State) :
  let c := args_get "company_name" "Investment Firm" args in
  let new := missing_specs (team_specs c) (agents s) in
  create_finance_team_handler args s
  = match new with
    | [] => (team_exists_text c, s)
    | _ :: _ =>
        (team_created_text c (map fst new),
         print (save_agents
                  (set_current_agent
                     (do_setup_transfer_functions
                        (set_agents s (agents s ++ map team_agent new)))
                     (Some "Risk_Analyst")))
               (LogFinanceTeam (map fst new)))
    end.
Proof.
  intros c new. unfold create_finance_team_handler. fold c.
  rewrite create_missing_spec
    by (rewrite team_specs_names; apply team_names_nodup).
  fold new. destruct new as [|sp new']; simpl.
  - now rewrite app_nil_r, set_agents_same.
  - reflexivity.
Qed.







(** The spec's scenario: on an empty registry, creating A and then B leaves
    A able to hand off to B, B to A, and A active. *)
Example create_agent_scenario :
  let s1 := snd (create_agent_handler [("name", "A"); ("instructions", "...")]
                   (initial_state disk0)) in
  let s2 := snd (create_agent_handler [("name", "B"); ("instructions", "...")] s1) in
  map (fun kv => (fst kv, transferTargets (snd kv))) (agents s1) = [("A", [])]
  /\ current_agent s1 = Some "A"
  /\ map (fun kv => (fst kv, transferTargets (snd kv))) (agents s2)
     = [("A", ["B"]); ("B", ["A"])]
  /\ current_agent s2 = Some "A".
Proof. repeat split. Qed.

(** A successful [create_agent] leaves a registry that is a fresh rebuild,
    with the new record last. *)
Lemma create_agent_rebuilds (args : dict string) (s : State) :
  let n := args_get "name" "" args in
  let i := args_get "instructions" "" args in
  n <> "" -> i <> "" -> PyDict.mem n (agents s) = false ->
  agents (snd (create_agent_handler args s))
  = setup_transfer_functions
      (agents s ++ [(n, {| name := n;
                           model := args_get "model" "claude-3-5-sonnet-20241022" args;
                           instructions := i; functions := [] |})]).
Proof.
  intros n i Hn Hi Hmem. unfold create_agent_handler. fold n. fold i.
  apply str_truthy_true in Hn, Hi. rewrite Hn, Hi, Hmem. simpl.
  rewrite agents_save_agents.
  rewrite PyDictFacts.set_fresh by (now apply PyDictFacts.mem_false_not_in).
  match goal with |- context [if ?c then _ else _] => destruct c end; reflexivity.
Qed.

(** * Further properties of the server *)

(** ** The registry invariant *)

Lemma wf_setup_transfer_functions (ags : dict ClaudeAgent) :
  PyDict.wf ags -> PyDict.wf (setup_transfer_functions ags).
Proof. unfold PyDict.wf. now rewrite keys_setup_transfer_functions. Qed.

Lemma keys_are_names_setup (ags : dict ClaudeAgent) :
  keys_are_names ags -> keys_are_names (setup_transfer_functions ags).
Proof.
  intros Hinv k a Hin. apply in_setup_transfer_functions in Hin as [a0 [Hin ->]].
  simpl. now apply Hinv.
Qed.

Lemma registry_ok_setup (ags : dict ClaudeAgent) :
  PyDict.wf ags -> keys_are_names ags -> registry_ok (setup_transfer_functions ags).
Proof.
  intros Hwf Hinv. split; [now apply wf_setup_transfer_functions|].
  split; [now apply keys_are_names_setup | apply setup_transfer_functions_idempotent].
Qed.

Lemma registry_ok_nil : registry_ok [].
Proof.
  split; [constructor|]. split; [intros k a []| reflexivity].
Qed.

Lemma wf_app (V : Type) (d l : dict V) :
  PyDict.wf d -> NoDup (PyDict.keys l) ->
  (forall k, In k (PyDict.keys l) -> ~ In k (PyDict.keys d)) ->
  PyDict.wf (d ++ l).
Proof.
  unfold PyDict.wf, PyDict.keys. intros Hd Hl Hdis. rewrite map_app.
  induction d as [|[k v] r IH]; simpl in *; [exact Hl|].
  inversion Hd as [|? ? Hn Hr]; subst. constructor.
  - intros Hin. apply in_app_or in Hin as [Hin|Hin]; [contradiction|].
    apply (Hdis k Hin). now left.
  - apply IH; [exact Hr|]. intros k' Hk' Hin. apply (Hdis k' Hk'). now right.
Qed.

Lemma keys_are_names_app (d l : dict ClaudeAgent) :
  keys_are_names d -> keys_are_names l -> keys_are_names (d ++ l).
Proof.
  intros Hd Hl k a Hin. apply in_app_or in Hin as [Hin|Hin]; auto.
Qed.

(** What [registry_ok] says of each record. *)
Lemma registry_ok_relations (ags : dict ClaudeAgent) (k : string) (a : ClaudeAgent) :
  registry_ok ags -> In (k, a) ags ->
  name a = k
  /\ transferTargets a = other_names k (PyDict.keys ags)
  /\ ~ In k (transferTargets a).
Proof.
  intros [Hwf [Hinv Hfix]] Hin.
  assert (Hname : name a = k) by now apply Hinv.
  split; [exact Hname|].
  rewrite <- Hfix in Hin. apply in_setup_transfer_functions in Hin as [a0 [_ ->]].
  unfold transferTargets. simpl.
  rewrite functions_for_target_names by assumption.
  rewrite functions_for_targets.
  split; [reflexivity | apply other_names_not_self].
Qed.

Lemma stored_entries_setup (ags : dict ClaudeAgent) :
  map stored_entry (setup_transfer_functions ags) = map stored_entry ags.
Proof.
  unfold setup_transfer_functions. rewrite map_map. apply map_ext.
  intros [k a]. reflexivity.
Qed.

(** ** Effects of [save_agents] and [load_agents] on the rest of the state *)

Lemma save_agents_content (s : State) :
  content (AGENTS_FILE (save_agents s))
  = if writable (AGENTS_FILE s)
    then Document (JObj (agent_data_of (agents s)))
    else content (AGENTS_FILE s).
Proof. unfold save_agents. destruct (writable (AGENTS_FILE s)); reflexivity. Qed.

Lemma save_agents_writable (s : State) :
  writable (AGENTS_FILE (save_agents s)) = writable (AGENTS_FILE s).
Proof. unfold save_agents. destruct (writable (AGENTS_FILE s)) eqn:E; simpl; congruence. Qed.

Lemma save_agents_session (s : State) : session (save_agents s) = session s.
Proof. unfold save_agents. destruct (writable (AGENTS_FILE s)); reflexivity. Qed.

Lemma load_agents_file (s : State) : AGENTS_FILE (load_agents s) = AGENTS_FILE s.
Proof.
  unfold load_agents. destruct (content (AGENTS_FILE s)) as [| |[]]; try reflexivity.
  destruct (load_loop _ _) as [ags []]; [|reflexivity].
  match goal with |- context [if ?c then _ else _] => destruct c end; reflexivity.
Qed.

(** Starting on a file that holds no JSON object leaves the registry empty. *)
Lemma load_agents_no_object (disk : storage) :
  (forall entries, content disk <> Document (JObj entries)) ->
  agents (load_agents (initial_state disk)) = [].
Proof.
  intros Hno. unfold load_agents. simpl.
  destruct (content disk) as [| |[]]; try reflexivity.
  now destruct (Hno members).
Qed.

(** Starting on a file written from a registry with distinct keys. *)
Lemma load_agents_stored (disk : storage) (ags : dict ClaudeAgent) :
  PyDict.wf ags ->
  content disk = Document (JObj (map stored_entry ags)) ->
  agents (load_agents (initial_state disk)) = setup_transfer_functions ags.
Proof.
  intros Hwf Hc. unfold load_agents. simpl. rewrite Hc. unfold PyDict.items.
  rewrite (load_loop_stored ags []) by exact Hwf. simpl.
  match goal with |- context [if ?c then _ else _] => destruct c end;
    simpl; apply setup_transfer_functions_stripped.
Qed.

Lemma served_ok_start (disk : storage) :
  disk_ok (content disk) -> served_ok (load_agents (initial_state disk)).
Proof.
  intros Hdisk. unfold served_ok, file_matches. rewrite load_agents_file. simpl.
  destruct (content disk) as [| |doc] eqn:Hc.
  - rewrite load_agents_no_object by (rewrite Hc; discriminate).
    split; [apply registry_ok_nil|]. split; [exact I | reflexivity].
  - rewrite load_agents_no_object by (rewrite Hc; discriminate).
    split; [apply registry_ok_nil|]. split; [exact I | reflexivity].
  - destruct doc as [| | | | |entries];
      try (rewrite load_agents_no_object by (rewrite Hc; discriminate);
           split; [apply registry_ok_nil|]; split; [exact I | reflexivity]).
    destruct Hdisk as [ags [Hwf [Hinv ->]]].
    rewrite (load_agents_stored disk Hwf Hc).
    split; [now apply registry_ok_setup|].
    split; [now exists ags|].
    intros _. now rewrite stored_entries_setup.
Qed.

(** ** The handlers in closed form *)

Lemma create_agent_result (args : dict string) (s : State) :
  let n := args_get "name" "" args in
  let i := args_get "instructions" "" args in
  let agent := {| name := n; model := args_get "model" "claude-3-5-sonnet-20241022" args;
                  instructions := i; functions := [] |} in
  n <> "" -> i <> "" -> PyDict.mem n (agents s) = false ->
  create_agent_handler args s
  = (created_reply n,
     print (save_agents
              (let s2 := do_setup_transfer_functions
                           (set_agents s (agents s ++ [(n, agent)])) in
               if negb (opt_truthy (current_agent s))
               then set_current_agent s2 (Some n) else s2))
           (LogCreated n)).
Proof.
  intros n i agent Hn Hi Hmem. unfold create_agent_handler. fold n. fold i.
  apply str_truthy_true in Hn, Hi. rewrite Hn, Hi, Hmem. simpl.
  rewrite PyDictFacts.set_fresh by (now apply PyDictFacts.mem_false_not_in).
  reflexivity.
Qed.

Lemma create_agent_rejected (args : dict string) (s : State) :
  let n := args_get "name" "" args in
  let i := args_get "instructions" "" args in
  n = "" \/ i = "" \/ PyDict.mem n (agents s) = true ->
  snd (create_agent_handler args s) = s.
Proof.
  intros n i H. unfold create_agent_handler. fold n. fold i.
  destruct (str_truthy n) eqn:En; [|reflexivity].
  destruct (str_truthy i) eqn:Ei; [|reflexivity]. simpl.
  destruct (PyDict.mem n (agents s)) eqn:Em; [reflexivity|].
  apply str_truthy_true in En, Ei. intuition congruence.
Qed.

(** The chat handler touches neither the registry nor the file. *)
Lemma chat_registry_frame (run : collaborator) (args : dict string) (s : State) :
  agents (snd (chat_with_swarm_handler run args s)) = agents s
  /\ AGENTS_FILE (snd (chat_with_swarm_handler run args s)) = AGENTS_FILE s.
Proof.
  unfold chat_with_swarm_handler.
  destruct (negb (str_truthy _)); [split; reflexivity|].
  destruct (negb (PyDict.nonempty _)); [split; reflexivity|].
  destruct (starting_agent_of args s) as [[k a]|]; [|split; reflexivity].
  destruct (run a _ _); split; reflexivity.
Qed.

(** ** Every request keeps [served_ok] *)

Lemma served_ok_commit (t : State) :
  registry_ok (agents t) -> disk_ok (content (AGENTS_FILE t)) ->
  served_ok (save_agents t).
Proof.
  intros Hreg Hdisk. unfold served_ok, file_matches.
  rewrite agents_save_agents, save_agents_content, save_agents_writable.
  split; [exact Hreg|].
  destruct Hreg as [Hwf [Hinv Hfix]].
  destruct (writable (AGENTS_FILE t)).
  - rewrite agent_data_of_wf by exact Hwf.
    split; [now exists (agents t) | reflexivity].
  - split; [exact Hdisk | discriminate].
Qed.

Lemma served_ok_create_agent (args : dict string) (s : State) :
  served_ok s -> served_ok (snd (create_agent_handler args s)).
Proof.
  intros Hs.
  destruct (string_dec (args_get "name" "" args) "") as [En|En];
    [rewrite create_agent_rejected by tauto; exact Hs|].
  destruct (string_dec (args_get "instructions" "" args) "") as [Ei|Ei];
    [rewrite create_agent_rejected by tauto; exact Hs|].
  destruct (PyDict.mem (args_get "name" "" args) (agents s)) eqn:Em;
    [rewrite create_agent_rejected by tauto; exact Hs|].
  rewrite (create_agent_result args s En Ei Em). simpl.
  destruct Hs as [[Hwf [Hinv _]] [Hdisk _]].
  assert (Hreg : registry_ok
                   (setup_transfer_functions
                      (agents s ++
                       [(args_get "name" "" args,
                         {| name := args_get "name" "" args;
                            model := args_get "model" "claude-3-5-sonnet-20241022" args;
                            instructions := args_get "instructions" "" args;
                            functions := [] |})]))).
  { apply registry_ok_setup.
    - apply wf_app; [exact Hwf | repeat constructor; simpl; tauto |].
      intros k [<-|[]]. now apply PyDictFacts.mem_false_not_in.
    - apply keys_are_names_app; [exact Hinv|].
      intros k a [H|[]]. now injection H as <- <-. }
  match goal with
  | |- served_ok (print (save_agents ?t) _) =>
      assert (Hc : served_ok (save_agents t))
  end.
  { apply served_ok_commit.
    - destruct (negb (opt_truthy (current_agent s))); exact Hreg.
    - destruct (negb (opt_truthy (current_agent s))); exact Hdisk. }
  exact Hc.
Qed.

Lemma served_ok_create_finance_team (args : dict string) (s : State) :
  served_ok s -> served_ok (snd (create_finance_team_handler args s)).
Proof.
  intros Hs. rewrite create_finance_team_result.
  set (c := args_get "company_name" "Investment Firm" args).
  assert (Hnd : NoDup (map fst (missing_specs (team_specs c) (agents s)))).
  { rewrite missing_specs_names, team_specs_names.
    apply NoDup_filter, team_names_nodup. }
  assert (Hfresh : forall k, In k (map fst (missing_specs (team_specs c) (agents s))) ->
                             ~ In k (PyDict.keys (agents s))).
  { intros k Hk. rewrite missing_specs_names in Hk. apply filter_In in Hk as [_ Hk].
    apply PyDictFacts.mem_false_not_in. now destruct (PyDict.mem k (agents s)). }
  destruct (missing_specs (team_specs c) (agents s)) as [|sp new]; [exact Hs|].
  destruct Hs as [[Hwf [Hinv _]] [Hdisk _]].
  change (served_ok
            (save_agents
               (set_current_agent
                  (do_setup_transfer_functions
                     (set_agents s (agents s ++ map team_agent (sp :: new))))
                  (Some "Risk_Analyst")))).
  apply served_ok_commit; [|exact Hdisk].
  change (registry_ok
            (setup_transfer_functions (agents s ++ map team_agent (sp :: new)))).
  assert (Hk : PyDict.keys (map team_agent (sp :: new)) = map fst (sp :: new)).
  { unfold PyDict.keys. rewrite map_map. reflexivity. }
  apply registry_ok_setup.
  - apply wf_app; [exact Hwf | now rewrite Hk | now rewrite Hk].
  - apply keys_are_names_app; [exact Hinv|].
    intros k a Hin. apply in_map_iff in Hin as [sp' [Heq _]].
    unfold team_agent in Heq. now injection Heq as <- <-.
Qed.

Lemma served_ok_call_tool (py : python) (run : collaborator) (name_ : string)
  (arguments : dict string) (s : State) :
  served_ok s -> served_ok (snd (call_tool py run name_ arguments s)).
Proof.
  intros Hs. unfold call_tool.
  destruct (String.eqb name_ "create_agent"); [now apply served_ok_create_agent|].
  destruct (String.eqb name_ "chat_with_swarm").
  { destruct (chat_registry_frame run arguments s) as [Ha Hf].
    unfold served_ok, file_matches in *. now rewrite Ha, Hf. }
  destruct (String.eqb name_ "create_finance_team");
    [now apply served_ok_create_finance_team|].
  destruct (String.eqb name_ "get_conversation_history").
  { destruct (get_conversation_history_handler py s); exact Hs. }
  destruct (String.eqb name_ "list_agents"); exact Hs.
Qed.

Lemma served_ok_restart (s : State) : served_ok s -> served_ok (restart s).
Proof. intros [_ [Hdisk _]]. now apply served_ok_start. Qed.

Lemma served_ok_serve (py : python) (disk : storage) (events : list event) :
  disk_ok (content disk) -> served_ok (serve py disk events).
Proof.
  intros Hdisk. unfold serve.
  assert (H0 := served_ok_start disk Hdisk).
  revert H0. generalize (load_agents (initial_state disk)) as s0.
  induction events as [|e r IH]; intros s0 H0; simpl; [exact H0|].
  apply IH. destruct e as [run name_ arguments|]; simpl.
  - now apply served_ok_call_tool.
  - now apply served_ok_restart.
Qed.

Lemma writable_call_tool (py : python) (run : collaborator) (name_ : string)
  (arguments : dict string) (s : State) :
  writable (AGENTS_FILE (snd (call_tool py run name_ arguments s)))
  = writable (AGENTS_FILE s).
Proof.
  unfold call_tool.
  destruct (String.eqb name_ "create_agent").
  { unfold create_agent_handler.
    destruct (_ || _); [reflexivity|]. destruct (PyDict.mem _ _); [reflexivity|].
    simpl. rewrite save_agents_writable.
    match goal with |- context [if ?c then _ else _] => destruct c end; reflexivity. }
  destruct (String.eqb name_ "chat_with_swarm").
  { now rewrite (proj2 (chat_registry_frame run arguments s)). }
  destruct (String.eqb name_ "create_finance_team").
  { rewrite create_finance_team_result.
    destruct (missing_specs _ _); [reflexivity|].
    simpl. now rewrite save_agents_writable. }
  destruct (String.eqb name_ "get_conversation_history").
  { destruct (get_conversation_history_handler py s); reflexivity. }
  destruct (String.eqb name_ "list_agents"); reflexivity.
Qed.

Lemma writable_serve (py : python) (disk : storage) (events : list event) :
  writable (AGENTS_FILE (serve py disk events)) = writable disk.
Proof.
  unfold serve.
  assert (H0 : writable (AGENTS_FILE (load_agents (initial_state disk))) = writable disk)
    by (now rewrite load_agents_file).
  revert H0. generalize (load_agents (initial_state disk)) as s0.
  induction events as [|e r IH]; intros s0 H0; simpl; [exact H0|].
  apply IH. destruct e as [run name_ arguments|]; simpl.
  - now rewrite writable_call_tool.
  - unfold restart. now rewrite load_agents_file.
Qed.

(** What a restart loads when the file matches the registry in memory. *)
Lemma restart_restores (s : State) :
  PyDict.wf (agents s) -> setup_transfer_functions (agents s) = agents s ->
  file_matches s -> agents (restart s) = agents s.
Proof.
  intros Hwf Hfix Hm. unfold restart, file_matches in *.
  destruct (content (AGENTS_FILE s)) as [| |doc] eqn:Hc.
  - rewrite load_agents_no_object by (rewrite Hc; discriminate). now rewrite Hm.
  - rewrite load_agents_no_object by (rewrite Hc; discriminate). now rewrite Hm.
  - destruct doc as [| | | | |entries];
      try (rewrite load_agents_no_object by (rewrite Hc; discriminate); now rewrite Hm).
    subst entries. rewrite (load_agents_stored _ Hwf Hc). exact Hfix.
Qed.

(** ** The serving process *)

(** X1: in every state a process reaches from a start on a sound file
    (missing, unreadable, or written from a registry with distinct keys
    equal to the record names), through any requests and restarts, the
    registry keys are distinct and every record is stored under its name
    with exactly the other agents' names as transfer targets, itself
    excluded. *)
Theorem served_registry_invariant :
  forall (py : python) (disk : storage) (events : list event)
         (k : string) (a : ClaudeAgent),
    disk_ok (content disk) ->
    In (k, a) (agents (serve py disk events)) ->
    NoDup (PyDict.keys (agents (serve py disk events)))
    /\ name a = k
    /\ transferTargets a = other_names k (PyDict.keys (agents (serve py disk events)))
    /\ ~ In k (transferTargets a).
Proof.
  intros py disk events k a Hdisk Hin.
  destruct (served_ok_serve py disk events Hdisk) as [Hreg _].
  split; [exact (proj1 Hreg)|].
  exact (@registry_ok_relations _ k a Hreg Hin).
Qed.

(** X2: on a writable, sound file the registry in memory is always the one
    a restart would load: no registered agent is lost by restarting, at any
    point of any sequence of requests and restarts. *)
Theorem served_registry_durable :
  forall (py : python) (disk : storage) (events : list event),
    disk_ok (content disk) ->
    writable disk = true ->
    agents (restart (serve py disk events)) = agents (serve py disk events).
Proof.
  intros py disk events Hdisk Hw.
  destruct (served_ok_serve py disk events Hdisk) as [[Hwf [_ Hfix]] [_ Hm]].
  apply restart_restores; [exact Hwf | exact Hfix |].
  apply Hm. now rewrite writable_serve.
Qed.

Lemma served_registry_invariant_witness :
  transferTargets (with_functions (mk_agent "A") [create_transfer "B" (mk_agent "B")])
  = other_names "A" (PyDict.keys (agents (serve py0 disk0 events_AB))).
Proof.
  refine (proj1 (proj2 (proj2 (@served_registry_invariant py0 disk0 events_AB "A"
            (with_functions (mk_agent "A") [create_transfer "B" (mk_agent "B")])
            _ _)))).
  - exact I.
  - vm_compute. left. reflexivity.
Defined.

Lemma served_registry_durable_witness :
  agents (restart (serve py0 disk0 events_AB)) = agents (serve py0 disk0 events_AB).
Proof.
  apply (served_registry_durable py0 disk0 events_AB); [exact I | reflexivity].
Defined.

(** ** [create_agent_handler], accepted requests *)

Lemma other_names_fresh (k : string) (l : list string) :
  ~ In k l -> other_names k l = l.
Proof.
  unfold other_names. induction l as [|x r IH]; simpl; intros H; [reflexivity|].
  destruct (String.eqb_spec x k) as [->|Hne]; simpl.
  - exfalso. apply H. now left.
  - rewrite IH; [reflexivity | tauto].
Qed.

Lemma other_names_app (k : string) (l1 l2 : list string) :
  other_names k (l1 ++ l2) = other_names k l1 ++ other_names k l2.
Proof. unfold other_names. apply filter_app. Qed.

Lemma get_app_r_fresh (V : Type) (d : dict V) (n : string) (v : V) :
  ~ In n (PyDict.keys d) -> PyDict.get n (d ++ [(n, v)]) = Some v.
Proof.
  induction d as [|[k' v'] r IH]; simpl; intros H.
  - now rewrite String.eqb_refl.
  - destruct (String.eqb_spec k' n) as [->|Hne]; [exfalso; apply H; now left|].
    apply IH. tauto.
Qed.

(** X3: an accepted [create_agent] answers with the confirmation, appends
    the new record (given name and instructions, given or default model)
    behind the existing ones, lets it transfer to every agent that was
    there, and adds it as the last transfer target of each of them, whose
    name, model and instructions stay. *)
Theorem create_agent_accepted :
  forall (args : dict string) (s : State),
    let n := args_get "name" "" args in
    let i := args_get "instructions" "" args in
    let r := create_agent_handler args s in
    n <> "" -> i <> "" -> PyDict.mem n (agents s) = false ->
    fst r = created_reply n
    /\ PyDict.keys (agents (snd r)) = PyDict.keys (agents s) ++ [n]
    /\ (exists a, PyDict.get n (agents (snd r)) = Some a
                  /\ triple a = (n, args_get "model" "claude-3-5-sonnet-20241022" args, i)
                  /\ map tf_target (functions a) = PyDict.keys (agents s))
    /\ (forall k a0, PyDict.get k (agents s) = Some a0 ->
          exists a', PyDict.get k (agents (snd r)) = Some a'
                     /\ triple a' = triple a0
                     /\ map tf_target (functions a')
                        = other_names k (PyDict.keys (agents s)) ++ [n]).
Proof.
  intros args s n i r Hn Hi Hmem. subst r.
  assert (Hfresh : ~ In n (PyDict.keys (agents s)))
    by (now apply PyDictFacts.mem_false_not_in).
  set (agent := {| name := n; model := args_get "model" "claude-3-5-sonnet-20241022" args;
                   instructions := i; functions := [] |}).
  assert (Ha : agents (snd (create_agent_handler args s))
               = setup_transfer_functions (agents s ++ [(n, agent)]))
    by (now apply create_agent_rebuilds).
  assert (Hf : fst (create_agent_handler args s) = created_reply n)
    by (now rewrite (create_agent_result args s Hn Hi Hmem)).
  rewrite Ha, Hf.
  assert (Hkeys : PyDict.keys (agents s ++ [(n, agent)]) = PyDict.keys (agents s) ++ [n])
    by (unfold PyDict.keys; now rewrite map_app).
  split; [reflexivity|].
  split; [now rewrite keys_setup_transfer_functions|].
  split.
  - rewrite get_setup_transfer_functions, get_app_r_fresh by exact Hfresh. simpl.
    eexists. split; [reflexivity|]. split; [reflexivity|]. simpl.
    rewrite functions_for_targets, Hkeys, other_names_app, other_names_fresh by exact Hfresh.
    unfold other_names. simpl. rewrite String.eqb_refl. simpl. apply app_nil_r.
  - intros k a0 Hget.
    rewrite get_setup_transfer_functions. erewrite get_app_l by exact Hget. simpl.
    eexists. split; [reflexivity|]. split; [reflexivity|]. simpl.
    rewrite functions_for_targets, Hkeys, other_names_app. f_equal.
    apply other_names_fresh. intros [Heq|[]]. subst k.
    apply Hfresh. apply PyDictFacts.mem_true_in. unfold PyDict.mem. now rewrite Hget.
Qed.

Lemma create_agent_accepted_witness :
  PyDict.keys (agents (snd (create_agent_handler args_new_C state_AB))) = ["A"; "B"; "C"]
  /\ fst (create_agent_handler args_new_C state_AB) = created_reply "C".
Proof.
  pose proof (create_agent_accepted args_new_C state_AB) as H. cbv zeta in H.
  destruct H as [H1 [H2 _]]; [discriminate | discriminate | reflexivity |].
  split; [exact H2 | exact H1].
Defined.

(** X4: an accepted [create_agent] makes the new agent the active one only
    when no active agent was set; an active agent already set stays.  The
    transcript, the context values and the record of collaborator calls are
    not touched. *)
Theorem create_agent_active_agent :
  forall (args : dict string) (s : State),
    let n := args_get "name" "" args in
    let i := args_get "instructions" "" args in
    let r := create_agent_handler args s in
    n <> "" -> i <> "" -> PyDict.mem n (agents s) = false ->
    (current_agent s = None \/ current_agent s = Some "" ->
       current_agent (snd r) = Some n)
    /\ (forall c, current_agent s = Some c -> c <> "" -> current_agent (snd r) = Some c)
    /\ conversation_history (snd r) = conversation_history s
    /\ context_variables (snd r) = context_variables s
    /\ swarm_calls (snd r) = swarm_calls s.
Proof.
  intros args s n i r Hn Hi Hmem. subst r.
  rewrite (create_agent_result args s Hn Hi Hmem). fold n. fold i. simpl.
  unfold save_agents.
  repeat split.
  - intros [Hc|Hc]; rewrite Hc; simpl; destruct (writable _); reflexivity.
  - intros c Hc Hne. rewrite Hc. simpl. apply str_truthy_true in Hne. rewrite Hne.
    simpl. destruct (writable _); simpl; exact Hc.
  - destruct (negb _), (writable _); reflexivity.
  - destruct (negb _), (writable _); reflexivity.
  - destruct (negb _), (writable _); reflexivity.
Qed.

Lemma create_agent_active_agent_witness :
  current_agent (snd (create_agent_handler args_new_C state_AB)) = Some "B"
  /\ current_agent (snd (create_agent_handler args_new_C (initial_state disk0))) = Some "C".
Proof.
  split.
  - pose proof (create_agent_active_agent args_new_C state_AB) as H. cbv zeta in H.
    destruct H as [_ [H _]]; [discriminate | discriminate | reflexivity |].
    apply (H "B" eq_refl). discriminate.
  - pose proof (create_agent_active_agent args_new_C (initial_state disk0)) as H.
    cbv zeta in H.
    destruct H as [H _]; [discriminate | discriminate | reflexivity |].
    apply H. now left.
Defined.

Lemma restart_same_file (s t : State) :
  AGENTS_FILE s = AGENTS_FILE t -> restart s = restart t.
Proof. unfold restart. now intros ->. Qed.

(** X5: an accepted [create_agent] on a writable file leaves the file
    holding exactly the registry now in memory (one name, model,
    instructions object per agent, the new one last), logs the rebuild,
    the save and the creation in this order, and a restart right after
    loads the very same registry. *)
Theorem create_agent_saved :
  forall (args : dict string) (s : State),
    let n := args_get "name" "" args in
    let i := args_get "instructions" "" args in
    let s' := snd (create_agent_handler args s) in
    n <> "" -> i <> "" -> PyDict.mem n (agents s) = false ->
    PyDict.wf (agents s) ->
    writable (AGENTS_FILE s) = true ->
    content (AGENTS_FILE s') = Document (JObj (map stored_entry (agents s')))
    /\ stderr s' = stderr s ++ [LogSetup (S (length (agents s)));
                                LogSaved (S (length (agents s))); LogCreated n]
    /\ agents (restart s') = agents s'.
Proof.
  intros args s n i s' Hn Hi Hmem Hwf Hw. subst s'.
  set (agent := {| name := n; model := args_get "model" "claude-3-5-sonnet-20241022" args;
                   instructions := i; functions := [] |}).
  assert (Ha : agents (snd (create_agent_handler args s))
               = setup_transfer_functions (agents s ++ [(n, agent)]))
    by (now apply create_agent_rebuilds).
  assert (Hwf' : PyDict.wf (agents (snd (create_agent_handler args s)))).
  { rewrite Ha. apply wf_setup_transfer_functions.
    apply wf_app; [exact Hwf | repeat constructor; simpl; tauto |].
    intros k [<-|[]]. now apply PyDictFacts.mem_false_not_in. }
  assert (Hc : content (AGENTS_FILE (snd (create_agent_handler args s)))
               = Document (JObj (map stored_entry (agents (snd (create_agent_handler args s)))))).
  { rewrite <- agent_data_of_wf by exact Hwf'.
    rewrite (create_agent_result args s Hn Hi Hmem). fold n. fold i. fold agent.
    simpl. rewrite save_agents_content, agents_save_agents.
    destruct (negb (opt_truthy (current_agent s))); simpl; rewrite Hw; reflexivity. }
  split; [exact Hc|]. split.
  - rewrite (create_agent_result args s Hn Hi Hmem). fold n. fold i. fold agent.
    simpl. unfold save_agents.
    destruct (negb (opt_truthy (current_agent s))); simpl; rewrite Hw; simpl;
      rewrite length_setup_transfer_functions, length_app; simpl;
      rewrite Nat.add_1_r; repeat rewrite <- app_assoc; reflexivity.
  - apply restart_restores; [exact Hwf' | |].
    + rewrite Ha. apply setup_transfer_functions_idempotent.
    + unfold file_matches. now rewrite Hc.
Qed.

Lemma create_agent_saved_witness :
  agents (restart (snd (create_agent_handler args_new_C state_AB)))
  = agents (snd (create_agent_handler args_new_C state_AB)).
Proof.
  pose proof (create_agent_saved args_new_C state_AB) as H. cbv zeta in H.
  destruct H as [_ [_ H]];
    [discriminate | discriminate | reflexivity | | reflexivity | exact H].
  repeat constructor; simpl; intuition discriminate.
Defined.

(** X6: when the file cannot be written, an accepted [create_agent] still
    registers the agent and answers with the same confirmation; the failed
    save only shows in the log.  The file is left as it was, so a restart
    loads what it would have loaded before the request. *)
Theorem create_agent_save_failure_swallowed :
  forall (args : dict string) (s : State),
    let n := args_get "name" "" args in
    let i := args_get "instructions" "" args in
    let r := create_agent_handler args s in
    n <> "" -> i <> "" -> PyDict.mem n (agents s) = false ->
    writable (AGENTS_FILE s) = false ->
    fst r = created_reply n
    /\ PyDict.mem n (agents (snd r)) = true
    /\ AGENTS_FILE (snd r) = AGENTS_FILE s
    /\ stderr (snd r) = stderr s ++ [LogSetup (S (length (agents s)));
                                    LogSaveError; LogCreated n]
    /\ restart (snd r) = restart s.
Proof.
  intros args s n i r Hn Hi Hmem Hw. subst r.
  set (agent := {| name := n; model := args_get "model" "claude-3-5-sonnet-20241022" args;
                   instructions := i; functions := [] |}).
  assert (Ha : agents (snd (create_agent_handler args s))
               = setup_transfer_functions (agents s ++ [(n, agent)]))
    by (now apply create_agent_rebuilds).
  assert (Hfile : AGENTS_FILE (snd (create_agent_handler args s)) = AGENTS_FILE s).
  { rewrite (create_agent_result args s Hn Hi Hmem). simpl. unfold save_agents.
    destruct (negb (opt_truthy (current_agent s))); simpl; rewrite Hw; reflexivity. }
  split; [now rewrite (create_agent_result args s Hn Hi Hmem)|].
  split.
  { apply PyDictFacts.mem_true_in. rewrite Ha, keys_setup_transfer_functions.
    unfold PyDict.keys. rewrite map_app. apply in_or_app. right. now left. }
  split; [exact Hfile|]. split.
  - rewrite (create_agent_result args s Hn Hi Hmem). fold n. fold i. fold agent.
    simpl. unfold save_agents.
    destruct (negb (opt_truthy (current_agent s))); simpl; rewrite Hw; simpl;
      rewrite length_setup_transfer_functions, length_app; simpl;
      rewrite Nat.add_1_r; repeat rewrite <- app_assoc; reflexivity.
  - now apply restart_same_file.
Qed.

Lemma create_agent_save_failure_swallowed_witness :
  let s := initial_state {| content := Absent; writable := false |} in
  fst (create_agent_handler args_new_C s) = created_reply "C"
  /\ agents (restart (snd (create_agent_handler args_new_C s))) = [].
Proof.
  intros s.
  pose proof (create_agent_save_failure_swallowed args_new_C s) as H. cbv zeta in H.
  destruct H as [H1 [_ [_ [_ H5]]]];
    [discriminate | discriminate | reflexivity | reflexivity |].
  split; [exact H1 | rewrite H5; reflexivity].
Defined.

(** ** [chat_with_swarm_handler], further behaviour *)

Lemma starting_agent_registered (args : dict string) (s : State) k a :
  starting_agent_of args s = Some (k, a) -> In (k, a) (agents s).
Proof.
  unfold starting_agent_of. destruct (agents s) as [|[k0 a0] r] eqn:Hags; [discriminate|].
  rewrite <- Hags.
  assert (H0 : In (k0, a0) (agents s)) by (rewrite Hags; now left).
  destruct (requested_agent_name args s) as [n|].
  - destruct (str_truthy n).
    + destruct (PyDict.get n (agents s)) as [a'|] eqn:Hget.
      * intros [= <- <-]. now apply PyDictFacts.get_in.
      * now intros [= <- <-].
    + now intros [= <- <-].
  - now intros [= <- <-].
Qed.

Lemma starting_agent_exists (args : dict string) (s : State) :
  agents s <> [] -> exists k a, starting_agent_of args s = Some (k, a).
Proof.
  unfold starting_agent_of. destruct (agents s) as [|[k0 a0] r] eqn:Hags; [congruence|].
  intros _. rewrite <- Hags.
  destruct (requested_agent_name args s) as [n|]; [|eauto].
  destruct (str_truthy n); [|eauto].
  destruct (PyDict.get n (agents s)); eauto.
Qed.

(** X7: the collaborator is called exactly once per chat request that has a
    non-empty message on a non-empty registry -- with a registered agent,
    the transcript extended by the user message, and the context values as
    they are -- and not at all otherwise, in which case the state is left
    as it was. *)
Theorem chat_collaborator_calls :
  forall (run : collaborator) (args : dict string) (s : State),
    let m := args_get "message" "" args in
    let r := chat_with_swarm_handler run args s in
    (m = "" \/ agents s = [] -> snd r = s)
    /\ (m <> "" -> agents s <> [] ->
        exists c, swarm_calls (snd r) = swarm_calls s ++ [c]
                  /\ call_messages c = conversation_history s ++ [user_message_of m]
                  /\ call_context c = context_variables s
                  /\ In (call_agent c) (PyDict.values (agents s))).
Proof.
  intros run args s m r. subst r. split.
  - unfold chat_with_swarm_handler. fold m. intros [Hm|Ha].
    + rewrite Hm. reflexivity.
    + destruct (negb (str_truthy m)); [reflexivity|]. rewrite Ha. reflexivity.
  - intros Hm Ha. destruct (starting_agent_exists args s Ha) as [k [a Hstart]].
    rewrite (chat_calls_collaborator run _ _ Hm Hstart). fold m.
    eexists. split; [reflexivity|]. simpl. repeat split.
    apply starting_agent_registered in Hstart.
    change a with (snd (k, a)). now apply in_map.
Qed.

Lemma chat_collaborator_calls_witness :
  length (swarm_calls (snd (chat_with_swarm_handler silent_run [("message", "hi")] state_AB)))
  = 1
  /\ snd (chat_with_swarm_handler silent_run [("message", "hi")] (initial_state disk0))
     = initial_state disk0.
Proof.
  split.
  - destruct (proj2 (chat_collaborator_calls silent_run [("message", "hi")] state_AB))
      as [c [Hc _]]; [discriminate | discriminate |].
    rewrite Hc. reflexivity.
  - apply (proj1 (chat_collaborator_calls silent_run [("message", "hi")]
                    (initial_state disk0))).
    right. reflexivity.
Defined.

Lemma transfer_info_empty (k n : string) : transfer_info_of k n = "" <-> n = k.
Proof.
  unfold transfer_info_of. destruct (String.eqb_spec n k) as [->|Hne]; simpl.
  - tauto.
  - split; [discriminate | contradiction].
Qed.


(** X9: after a chat the collaborator answered, a context key holds the
    value the collaborator returned for it, and keeps its previous value
    (or absence) when the collaborator returned none: the returned context
    is merged in, it does not replace the old one. *)
Theorem chat_context_merged :
  forall (run : collaborator) (args : dict string) (s : State)
         (k : string) (a : ClaudeAgent) (response : ClaudeResponse) (key : string),
    let m := args_get "message" "" args in
    let r := chat_with_swarm_handler run args s in
    m <> "" ->
    starting_agent_of args s = Some (k, a) ->
    run a (conversation_history s ++ [user_message_of m]) (context_variables s)
      = Returned response ->
    PyDict.wf (response_context_variables response) ->
    PyDict.get key (context_variables (snd r))
    = match PyDict.get key (response_context_variables response) with
      | Some v => Some v
      | None => PyDict.get key (context_variables s)
      end.
Proof.
  intros run args s k a response key m r Hm Hstart Hrun Hwf. subst r.
  unfold chat_with_swarm_handler. fold m.
  apply str_truthy_true in Hm. rewrite Hm.
  rewrite (starting_agent_nonempty _ _ Hstart), Hstart. simpl.
  rewrite Hrun. simpl. now apply PyDictFacts.get_update.
Qed.

Lemma chat_context_merged_witness :
  PyDict.get "k" (context_variables
                    (snd (chat_with_swarm_handler silent_run [("message", "hi")] state_AB)))
  = Some (VStr "v").
Proof.
  pose proof (@chat_context_merged silent_run [("message", "hi")] state_AB "B"
                (with_functions (mk_agent "B") [create_transfer "A" (mk_agent "A")])
                {| messages := [];
                   agent := with_functions (mk_agent "B")
                              [create_transfer "A" (mk_agent "A")];
                   response_context_variables := [("k", VStr "v")] |} "k") as H.
  cbv zeta in H. rewrite H; [reflexivity | discriminate | reflexivity | reflexivity |].
  repeat constructor. simpl. tauto.
Defined.

(** ** [create_finance_team_handler], further behaviour *)

Lemma get_app_r (V : Type) (d l : dict V) (k : string) :
  ~ In k (PyDict.keys d) -> PyDict.get k (d ++ l) = PyDict.get k l.
Proof.
  induction d as [|[k' v'] r IH]; simpl; intros H; [reflexivity|].
  destruct (String.eqb_spec k' k) as [->|Hne]; [exfalso; apply H; now left|].
  apply IH. tauto.
Qed.

(** X10: when at least one of the four roles is missing, the handler
    registers the missing ones with the model and the instructions of
    [team_specs] for the given company, reports exactly them, makes
    Risk_Analyst the active agent whatever agent was active, and rebuilds
    and saves once (three log lines); the transcript and the context values
    stay.  When none is missing it returns the state as it is. *)
Theorem create_finance_team_commit :
  forall (args : dict string) (s : State),
    let c := args_get "company_name" "Investment Firm" args in
    let created := filter (fun n => negb (PyDict.mem n (agents s))) team_names in
    let r := create_finance_team_handler args s in
    (created = [] -> r = (team_exists_text c, s))
    /\ (created <> [] ->
        fst r = team_created_text c created
        /\ current_agent (snd r) = Some "Risk_Analyst"
        /\ (forall n spec, In (n, spec) (team_specs c) -> PyDict.mem n (agents s) = false ->
              exists a, PyDict.get n (agents (snd r)) = Some a
                        /\ triple a = (n, snd spec, fst spec))
        /\ stderr (snd r)
           = stderr s ++ [LogSetup (length (agents s) + length created);
                          (if writable (AGENTS_FILE s)
                           then LogSaved (length (agents s) + length created)
                           else LogSaveError);
                          LogFinanceTeam created]
        /\ conversation_history (snd r) = conversation_history s
        /\ context_variables (snd r) = context_variables s).
Proof.
  intros args s c created r. subst r created.
  rewrite create_finance_team_result. fold c.
  rewrite <- (team_specs_names c), <- missing_specs_names.
  assert (Hnd : NoDup (map fst (missing_specs (team_specs c) (agents s)))).
  { rewrite missing_specs_names, team_specs_names.
    apply NoDup_filter, team_names_nodup. }
  assert (Hin : forall n spec, In (n, spec) (team_specs c) ->
                  PyDict.mem n (agents s) = false ->
                  In (n, spec) (missing_specs (team_specs c) (agents s))).
  { intros n spec Hn Hm. unfold missing_specs. apply filter_In. split; [exact Hn|].
    simpl. now rewrite Hm. }
  destruct (missing_specs (team_specs c) (agents s)) as [|sp new].
  - split; [reflexivity | intros H; now destruct H].
  - split; [discriminate|]. intros _.
    split; [reflexivity|]. split; [unfold save_agents; destruct (writable _); reflexivity|].
    split.
    { intros n spec Hn Hm. specialize (Hin n spec Hn Hm).
      assert (Hag : forall (t : string) l x,
                 agents (snd (t, print (save_agents x) l)) = agents x)
        by (intros; simpl; apply agents_save_agents).
      rewrite Hag.
      change (exists a,
                 PyDict.get n (setup_transfer_functions
                                 (agents s ++ map team_agent (sp :: new))) = Some a
                 /\ triple a = (n, snd spec, fst spec)).
      rewrite get_setup_transfer_functions.
      rewrite get_app_r by (now apply PyDictFacts.mem_false_not_in).
      rewrite (@PyDictFacts.in_get _ (map team_agent (sp :: new)) n
                 (snd (team_agent (n, spec)))).
      - simpl. eexists. split; reflexivity.
      - unfold PyDict.wf, PyDict.keys. rewrite map_map. exact Hnd.
      - change (n, snd (team_agent (n, spec))) with (team_agent (n, spec)).
        now apply in_map. }
    split.
    { simpl snd. unfold save_agents, do_setup_transfer_functions.
      destruct (writable (AGENTS_FILE s)) eqn:Hw; simpl; rewrite Hw; simpl;
        rewrite length_setup_transfer_functions, length_app;
        simpl; rewrite !length_map; repeat rewrite <- app_assoc; reflexivity. }
    unfold save_agents. split; destruct (writable _); reflexivity.
Qed.

Lemma create_finance_team_commit_witness :
  current_agent (snd (create_finance_team_handler [] state_AB)) = Some "Risk_Analyst"
  /\ snd (create_finance_team_handler []
            (snd (create_finance_team_handler [] state_AB)))
     = snd (create_finance_team_handler [] state_AB).
Proof.
  split.
  - destruct (proj2 (create_finance_team_commit [] state_AB)) as [_ [H _]];
      [discriminate | exact H].
  - exact (f_equal snd (proj1 (create_finance_team_commit []
                                 (snd (create_finance_team_handler [] state_AB)))
                          eq_refl)).
Defined.

(** ** [load_agents], accepted files *)

Lemma load_loop_all (entries : list (string * json)) (recs : dict ClaudeAgent) :
  Forall2 (fun kv ka => fst ka = fst kv /\ agent_of_json (snd kv) = Some (snd ka))
          entries recs ->
  forall acc : dict ClaudeAgent,
    NoDup (PyDict.keys acc ++ PyDict.keys recs) ->
    load_loop entries acc = (acc ++ recs, true).
Proof.
  induction 1 as [|[k1 d1] [k2 a2] pre' recs' [Hk Ha] _ IH]; intros acc Hnd; simpl.
  - now rewrite app_nil_r.
  - simpl in Hk, Ha. subst k2. rewrite Ha. simpl in Hnd.
    rewrite PyDictFacts.set_fresh.
    + rewrite IH.
      * now rewrite <- app_assoc.
      * unfold PyDict.keys in *. rewrite map_app. simpl. rewrite <- app_assoc. exact Hnd.
    + apply NoDup_remove_2 in Hnd. intros Hin. apply Hnd. apply in_or_app. now left.
Qed.

Lemma agent_of_json_members (o : dict json) (n m i : string) :
  PyDict.get "name" o = Some (JStr n) ->
  PyDict.get "model" o = Some (JStr m) ->
  PyDict.get "instructions" o = Some (JStr i) ->
  agent_of_json (JObj o)
  = Some {| name := n; model := m; instructions := i; functions := [] |}.
Proof. intros Hn Hm Hi. unfold agent_of_json. now rewrite Hn, Hm, Hi. Qed.

(** X11: a fresh process started on a file holding an object with distinct
    keys, each mapped to an object with string members name, model and
    instructions (further members are ignored), registers one agent per
    key, in file order, with the name, model and instructions of its
    object -- the name is taken from the object, not from the key --,
    rebuilds the relations, makes the first key the active agent (none on
    an empty object), logs the rebuild and the load, and leaves the file
    alone. *)
Theorem load_agents_accepts :
  forall (disk : storage) (entries : list (string * json)) (recs : dict ClaudeAgent),
    let s' := load_agents (initial_state disk) in
    content disk = Document (JObj entries) ->
    Forall2 (fun kv ka =>
               fst ka = fst kv
               /\ functions (snd ka) = []
               /\ exists o, snd kv = JObj o
                            /\ PyDict.get "name" o = Some (JStr (name (snd ka)))
                            /\ PyDict.get "model" o = Some (JStr (model (snd ka)))
                            /\ PyDict.get "instructions" o
                               = Some (JStr (instructions (snd ka))))
            entries recs ->
    PyDict.wf recs ->
    agents s' = setup_transfer_functions recs
    /\ PyDict.keys (agents s') = map fst entries
    /\ map triple (PyDict.values (agents s')) = map triple (PyDict.values recs)
    /\ current_agent s' = PyDict.first_key recs
    /\ stderr s' = [LogSetup (length recs); LogLoaded (length recs)]
    /\ AGENTS_FILE s' = disk.
Proof.
  intros disk entries recs s' Hc Hrecs Hwf.
  assert (Hloop : load_loop entries [] = (recs, true)).
  { apply (load_loop_all (recs := recs)); [|exact Hwf].
    eapply Forall2_impl; [|exact Hrecs]. simpl.
    intros [k d] [k' [n m i fs]] [Hk [Hfs [o [Hd [Hn [Hm Hi]]]]]]. simpl in *.
    subst. split; [reflexivity|]. now apply agent_of_json_members. }
  assert (Hkeys : PyDict.keys recs = map fst entries).
  { clear -Hrecs. induction Hrecs as [|kv ka l l' [Hk _] _ IH]; simpl; [reflexivity|].
    now rewrite Hk, IH. }
  assert (Ha : agents s' = setup_transfer_functions recs).
  { subst s'. unfold load_agents. simpl. rewrite Hc. unfold PyDict.items.
    rewrite Hloop. simpl.
    match goal with |- context [if ?c then _ else _] => destruct c end; reflexivity. }
  split; [exact Ha|]. rewrite Ha.
  split; [now rewrite keys_setup_transfer_functions|].
  split; [apply triples_setup_transfer_functions|].
  subst s'. unfold load_agents. simpl. rewrite Hc. unfold PyDict.items.
  rewrite Hloop. simpl.
  destruct recs as [|[k0 a0] r]; simpl.
  - repeat split.
  - rewrite !length_map. repeat split.
Qed.

Lemma load_agents_accepts_witness :
  let disk := {| content :=
                   Document (JObj [("X", JObj [("instructions", JStr "i");
                                               ("functions", JArr []);
                                               ("model", JStr "m");
                                               ("name", JStr "Y")])]);
                 writable := true |} in
  map triple (PyDict.values (agents (load_agents (initial_state disk)))) = [("Y", "m", "i")]
  /\ current_agent (load_agents (initial_state disk)) = Some "X".
Proof.
  intros disk.
  pose proof (@load_agents_accepts disk
                [("X", JObj [("instructions", JStr "i"); ("functions", JArr []);
                             ("model", JStr "m"); ("name", JStr "Y")])]
                [("X", {| name := "Y"; model := "m"; instructions := "i";
                          functions := [] |})]) as H.
  cbv zeta in H.
  destruct H as [_ [_ [H3 [H4 _]]]].
  - reflexivity.
  - repeat constructor. simpl. eexists. repeat split.
  - repeat constructor. simpl. tauto.
  - split; [exact H3 | exact H4].
Defined.

(** ** [call_tool] *)

Lemma string_app_assoc (a b c : string) : ((a ++ b) ++ c = a ++ (b ++ c))%string.
Proof. induction a as [|x a IH]; simpl; [reflexivity | now rewrite IH]. Qed.

Lemma string_app_nil_r (a : string) : (a ++ "")%string = a.
Proof. induction a as [|x a IH]; simpl; [reflexivity | now rewrite IH]. Qed.

Lemma history_loop_prefix (py : python) (msgs : list message) :
  forall (i : nat) (result t : string),
    history_loop py i msgs result = Value t ->
    exists rest, t = (result ++ rest)%string.
Proof.
  induction msgs as [|msg r IH]; intros i result t; simpl.
  - intros [= <-]. exists ""%string. now rewrite string_app_nil_r.
  - destruct (role_of py msg) as [role|]; [|discriminate].
    destruct (content_of py msg) as [content|]; [|discriminate].
    intros H. apply IH in H as [rest ->].
    eexists. apply string_app_assoc.
Qed.

Lemma fold_left_append (A : Type) (f : A -> string) (l : list A) :
  forall init : string,
    fold_left (fun result x => (result ++ f x)%string) l init
    = (init ++ String.concat "" (map f l))%string.
Proof.
  induction l as [|x r IH]; intros init; simpl.
  - now rewrite string_app_nil_r.
  - rewrite IH. destruct r as [|y r']; simpl.
    + apply string_app_nil_r.
    + apply string_app_assoc.
Qed.

(** No reply of a handler can be taken for the unknown-tool reply: its
    fifth byte is never the [U] of [Unknown]. *)
Lemma create_agent_reply_byte (args : dict string) (s : State) :
  String.get 4 (fst (create_agent_handler args s)) <> Some "U"%char.
Proof.
  unfold create_agent_handler.
  destruct (_ || _); [simpl; discriminate|].
  destruct (PyDict.mem _ _); simpl; discriminate.
Qed.

Lemma chat_reply_byte (run : collaborator) (args : dict string) (s : State) :
  String.get 4 (fst (chat_with_swarm_handler run args s)) <> Some "U"%char.
Proof.
  unfold chat_with_swarm_handler.
  destruct (negb (str_truthy _)); [simpl; discriminate|].
  destruct (negb (PyDict.nonempty _)); [simpl; discriminate|].
  destruct (starting_agent_of args s) as [[k a]|]; [|simpl; discriminate].
  destruct (run a _ _); simpl; discriminate.
Qed.

Lemma create_finance_team_reply_byte (args : dict string) (s : State) :
  String.get 4 (fst (create_finance_team_handler args s)) <> Some "U"%char.
Proof.
  rewrite create_finance_team_result.
  destruct (missing_specs _ _); simpl; discriminate.
Qed.

Lemma history_reply_byte (py : python) (s : State) (t : string) :
  get_conversation_history_handler py s = Value t ->
  String.get 4 t <> Some "U"%char.
Proof.
  unfold get_conversation_history_handler.
  destruct (conversation_history s); [intros [= <-]; simpl; discriminate|].
  intros H. apply history_loop_prefix in H as [rest ->]. simpl. discriminate.
Qed.

Lemma list_agents_reply_byte (s : State) :
  String.get 4 (list_agents_text s) <> Some "U"%char.
Proof.
  unfold list_agents_text. destruct (agents s) as [|kv r]; [simpl; discriminate|].
  rewrite fold_left_append. simpl. discriminate.
Qed.

Lemma unknown_tool_byte (t : string) : String.get 4 (unknown_tool_text t) = Some "U"%char.
Proof. reflexivity. Qed.

Lemma tool_names_listed (t : string) :
  In t tool_names <->
  t = "create_agent" \/ t = "chat_with_swarm" \/ t = "create_finance_team"
  \/ t = "get_conversation_history" \/ t = "list_agents".
Proof. unfold tool_names. simpl. intuition congruence. Qed.

(** X12: the dispatcher serves exactly the tools of the tool table: a name
    that [list_tools] announces is answered by its handler, never with the
    unknown-tool reply, and any other name is answered with the
    unknown-tool reply and leaves the state as it is. *)
Theorem call_tool_serves_listed_tools :
  forall (py : python) (run : collaborator) (name_ : string)
         (arguments : dict string) (s : State),
    (In name_ tool_names <->
     fst (call_tool py run name_ arguments s) <> unknown_tool_text name_)
    /\ (~ In name_ tool_names ->
        call_tool py run name_ arguments s = (unknown_tool_text name_, s)).
Proof.
  intros py run name_ arguments s.
  assert (Hbyte : forall t, String.get 4 t <> Some "U"%char -> t <> unknown_tool_text name_)
    by (intros t Ht ->; now apply Ht).
  rewrite tool_names_listed. unfold call_tool.
  destruct (String.eqb_spec name_ "create_agent");
    [split; [split; [intros _; apply Hbyte, create_agent_reply_byte | tauto] | tauto]|].
  destruct (String.eqb_spec name_ "chat_with_swarm");
    [split; [split; [intros _; apply Hbyte, chat_reply_byte | tauto] | tauto]|].
  destruct (String.eqb_spec name_ "create_finance_team");
    [split; [split; [intros _; apply Hbyte, create_finance_team_reply_byte | tauto] | tauto]|].
  destruct (String.eqb_spec name_ "get_conversation_history").
  { split; [split; [intros _ | tauto] | tauto].
    destruct (get_conversation_history_handler py s) as [t|err] eqn:Hh; simpl.
    - apply Hbyte. now apply (history_reply_byte py s).
    - apply Hbyte. simpl. discriminate. }
  destruct (String.eqb_spec name_ "list_agents");
    [split; [split; [intros _; apply Hbyte, list_agents_reply_byte | tauto] | tauto]|].
  simpl. split; [|reflexivity]. split; [tauto | intros H; now destruct H].
Qed.

Lemma call_tool_serves_listed_tools_witness :
  call_tool py0 silent_run "delete_agent" [("name", "A")] state_AB
  = (unknown_tool_text "delete_agent", state_AB).
Proof.
  apply (proj2 (call_tool_serves_listed_tools py0 silent_run "delete_agent"
                  [("name", "A")] state_AB)).
  unfold tool_names. simpl. intuition discriminate.
Defined.

Lemma create_agent_session_frame (args : dict string) (s : State) :
  conversation_history (snd (create_agent_handler args s)) = conversation_history s
  /\ context_variables (snd (create_agent_handler args s)) = context_variables s
  /\ swarm_calls (snd (create_agent_handler args s)) = swarm_calls s.
Proof.
  unfold create_agent_handler.
  destruct (_ || _); [repeat split|].
  destruct (PyDict.mem _ _); [repeat split|].
  simpl. unfold save_agents.
  destruct (negb (opt_truthy (current_agent s))); destruct (writable _); repeat split.
Qed.

Lemma create_finance_team_session_frame (args : dict string) (s : State) :
  conversation_history (snd (create_finance_team_handler args s)) = conversation_history s
  /\ context_variables (snd (create_finance_team_handler args s)) = context_variables s
  /\ swarm_calls (snd (create_finance_team_handler args s)) = swarm_calls s.
Proof.
  rewrite create_finance_team_result.
  destruct (missing_specs _ _); [repeat split|].
  simpl. unfold save_agents. destruct (writable _); repeat split.
Qed.

(** X13: what each tool can touch.  Only [create_agent] and
    [create_finance_team] change the registry or the file; only
    [chat_with_swarm] changes the transcript or the context values or calls
    the collaborator; [get_conversation_history], [list_agents] and unknown
    names leave the active agent alone, the last two the whole state. *)
Theorem call_tool_frame :
  forall (py : python) (run : collaborator) (name_ : string)
         (arguments : dict string) (s : State),
    let s' := snd (call_tool py run name_ arguments s) in
    (name_ <> "create_agent" -> name_ <> "create_finance_team" ->
       agents s' = agents s /\ AGENTS_FILE s' = AGENTS_FILE s)
    /\ (name_ <> "chat_with_swarm" ->
          conversation_history s' = conversation_history s
          /\ context_variables s' = context_variables s
          /\ swarm_calls s' = swarm_calls s)
    /\ (name_ <> "create_agent" -> name_ <> "create_finance_team" ->
        name_ <> "chat_with_swarm" -> current_agent s' = current_agent s)
    /\ (name_ <> "create_agent" -> name_ <> "create_finance_team" ->
        name_ <> "chat_with_swarm" -> name_ <> "get_conversation_history" -> s' = s).
Proof.
  intros py run name_ arguments s s'. subst s'. unfold call_tool.
  destruct (String.eqb_spec name_ "create_agent") as [->|H1].
  { split; [congruence|]. split; [intros _; apply create_agent_session_frame|].
    split; congruence. }
  destruct (String.eqb_spec name_ "chat_with_swarm") as [->|H2].
  { split; [intros _ _; apply chat_registry_frame|]. repeat split; congruence. }
  destruct (String.eqb_spec name_ "create_finance_team") as [->|H3].
  { split; [congruence|]. split; [intros _; apply create_finance_team_session_frame|].
    split; congruence. }
  destruct (String.eqb_spec name_ "get_conversation_history") as [->|H4].
  { destruct (get_conversation_history_handler py s); simpl; repeat split; congruence. }
  destruct (String.eqb_spec name_ "list_agents"); simpl; repeat split.
Qed.

Lemma call_tool_frame_witness :
  snd (call_tool py0 silent_run "list_agents" [] state_AB) = state_AB
  /\ agents (snd (call_tool py0 silent_run "chat_with_swarm" [("message", "hi")] state_AB))
     = registry_AB.
Proof.
  split.
  - apply (proj2 (proj2 (proj2 (call_tool_frame py0 silent_run "list_agents" []
                                  state_AB)))); discriminate.
  - apply (proj1 (proj1 (call_tool_frame py0 silent_run "chat_with_swarm"
                           [("message", "hi")] state_AB)
                    ltac:(discriminate) ltac:(discriminate))).
Defined.

(** ** The tool table and the handlers *)

Lemma args_get_set_other (key key' default v : string) (args : dict string) :
  key <> key' -> args_get key default (PyDict.set key' v args) = args_get key default args.
Proof.
  intros Hne. unfold args_get. rewrite PyDictFacts.get_set_other by exact Hne. reflexivity.
Qed.

Lemma args_get_set_default (key default : string) (args : dict string) :
  PyDict.get key args = None ->
  args_get key default (PyDict.set key default args) = args_get key default args.
Proof.
  intros Hnone. unfold args_get. now rewrite PyDictFacts.get_set_same, Hnone.
Qed.

(** X14: the tool table tells the truth about the handlers.  Passing the
    default it declares for [model] or for [company_name] gives the same
    reply and state as leaving the argument out, and a request that lacks
    an argument the table marks as required ([name] or [instructions] of
    [create_agent], [message] of [chat_with_swarm]) is refused with the
    state left as it is. *)
Theorem tool_table_matches_handlers :
  forall (run : collaborator) (args : dict string) (s : State),
    (forall d, declared_default "create_agent" "model" = Some d ->
       PyDict.get "model" args = None ->
       create_agent_handler (PyDict.set "model" d args) s = create_agent_handler args s)
    /\ (forall d, declared_default "create_finance_team" "company_name" = Some d ->
          PyDict.get "company_name" args = None ->
          create_finance_team_handler (PyDict.set "company_name" d args) s
          = create_finance_team_handler args s)
    /\ (forall p, In p (required_of "create_agent") -> PyDict.get p args = None ->
          create_agent_handler args s = (validation_failure, s))
    /\ (forall p, In p (required_of "chat_with_swarm") -> PyDict.get p args = None ->
          chat_with_swarm_handler run args s = ("❌ Message is required"%string, s)).
Proof.
  intros run args s. split; [|split; [|split]].
  - intros d [= <-] Hnone. unfold create_agent_handler.
    rewrite !args_get_set_other by discriminate.
    now rewrite args_get_set_default.
  - intros d [= <-] Hnone. unfold create_finance_team_handler.
    now rewrite args_get_set_default.
  - intros p Hp Hnone. unfold create_agent_handler, args_get.
    destruct Hp as [<-|[<-|[]]]; rewrite Hnone; simpl; [reflexivity|].
    now rewrite orb_true_r.
  - intros p Hp Hnone. unfold chat_with_swarm_handler, args_get.
    destruct Hp as [<-|[]]. now rewrite Hnone.
Qed.

Lemma tool_table_matches_handlers_witness :
  create_agent_handler [("name", "C"); ("instructions", "Count");
                        ("model", "claude-3-5-sonnet-20241022")] state_AB
  = create_agent_handler args_new_C state_AB.
Proof.
  apply (proj1 (tool_table_matches_handlers silent_run args_new_C state_AB)
           "claude-3-5-sonnet-20241022" eq_refl eq_refl).
Defined.

(** ** [get_conversation_history_handler] *)

Lemma role_of_plain (py : python) (msg : message) :
  plain (PyDict.get "role" msg) -> role_of py msg = Value (shown_role py msg).
Proof.
  unfold role_of, shown_role. intros [H|[t H]]; now rewrite H.
Qed.

Lemma content_of_plain (py : python) (msg : message) :
  plain (PyDict.get "content" msg) -> content_of py msg = Value (shown_content msg).
Proof.
  unfold content_of, shown_content. intros [H|[t H]]; now rewrite H.
Qed.

Lemma history_loop_plain (py : python) (msgs : list message) :
  Forall plain_message msgs ->
  forall (i : nat) (result : string),
    history_loop py i msgs result
    = Value (result
             ++ String.concat ""
                  (map (fun im => history_line (fst im) (shown_role py (snd im))
                                    (shown_content (snd im)))
                       (numbered i msgs)))%string.
Proof.
  unfold numbered.
  induction 1 as [|msg r [Hr Hc] _ IH]; intros i result; simpl.
  - now rewrite string_app_nil_r.
  - rewrite (role_of_plain py msg Hr), (content_of_plain py msg Hc), IH.
    f_equal. destruct r as [|m2 r']; simpl.
    + now rewrite string_app_nil_r.
    + apply string_app_assoc.
Qed.

Lemma history_loop_raises (py : python) (pre post : list message) (msg : message) :
  Forall plain_message pre ->
  plain (PyDict.get "role" msg) ->
  PyDict.get "content" msg = Some VNone ->
  forall (i : nat) (result : string),
    history_loop py i (pre ++ msg :: post) result
    = Raise "'NoneType' object is not subscriptable".
Proof.
  intros Hpre Hr Hc.
  induction Hpre as [|m r [Hr' Hc'] _ IH]; intros i result; simpl.
  - rewrite (role_of_plain py msg Hr). unfold content_of. now rewrite Hc.
  - rewrite (role_of_plain py m Hr'), (content_of_plain py m Hc'). apply IH.
Qed.

Lemma char_count_take_chars (n : nat) (t : string) : char_count (take_chars n t) <= n.
Proof.
  revert n. induction t as [|c r IH]; intros n; simpl; [lia|].
  destruct (is_continuation c) eqn:Hc; simpl.
  - rewrite Hc. apply IH.
  - destruct n as [|n']; simpl; [lia|]. rewrite Hc. specialize (IH n'). lia.
Qed.

Lemma map_fst_numbered (A : Type) (l : list A) :
  forall first, map fst (numbered first l) = seq first (length l).
Proof.
  unfold numbered. induction l as [|x r IH]; intros first; simpl; [reflexivity|].
  now rewrite IH.
Qed.

Lemma length_last_n (A : Type) (n : nat) (l : list A) :
  length (last_n n l) = Nat.min n (length l).
Proof. unfold last_n. rewrite length_skipn. lia. Qed.

(** X15: on an empty transcript the history tool answers with the fixed
    notice.  On a transcript whose last five messages have a role and a
    content that are strings or missing -- whatever the older messages hold
    -- it never raises: the answer is the header followed by one line per
    message of the last five (all of them when there are fewer), numbered
    from 1, each with the title-cased role ([unknown] when missing) and at
    most the first 100 characters of the content. *)
Theorem history_of_plain_transcript :
  forall (py : python) (s : State),
    let recent := last_n 5 (conversation_history s) in
    (conversation_history s = [] ->
       get_conversation_history_handler py s = Value no_history_text)
    /\ (conversation_history s <> [] -> Forall plain_message recent ->
        get_conversation_history_handler py s
        = Value (history_header py s
                 ++ String.concat ""
                      (map (fun im => history_line (fst im) (shown_role py (snd im))
                                        (shown_content (snd im)))
                           (numbered 1 recent)))%string
        /\ length recent = Nat.min 5 (length (conversation_history s))
        /\ map fst (numbered 1 recent) = seq 1 (length recent)
        /\ Forall (fun msg => char_count (shown_content msg) <= 100) recent).
Proof.
  intros py s recent. subst recent. unfold get_conversation_history_handler. split.
  - now intros ->.
  - intros Hne Hplain. destruct (conversation_history s) as [|m0 h] eqn:Hh; [congruence|].
    rewrite <- Hh in *. split; [now apply history_loop_plain|].
    split; [apply length_last_n|]. split.
    + apply map_fst_numbered.
    + apply Forall_forall. intros msg _. apply char_count_take_chars.
Qed.

Lemma history_of_plain_transcript_witness :
  get_conversation_history_handler py0 state_long
  = Value (history_header py0 state_long
           ++ history_line 1 "user" "three" ++ history_line 2 "user" "four"
           ++ history_line 3 "user" "five" ++ history_line 4 "user" "six"
           ++ history_line 5 "user" "seven")%string.
Proof.
  refine (eq_trans (proj1 (proj2 (history_of_plain_transcript py0 state_long) _ _)) _).
  - discriminate.
  - unfold last_n. simpl.
    repeat (apply Forall_cons; [split; right; eexists; reflexivity|]). apply Forall_nil.
  - reflexivity.
Defined.

(** X16: when one of the last five messages has a content of [None] (as a
    message that only carries a hand-off does) behind messages that are
    plain, the history tool does not answer with the history: the request
    ends in the dispatcher's error reply, naming the tool and the fault,
    and only the log changes. *)
Theorem history_fails_on_none_content :
  forall (py : python) (run : collaborator) (arguments : dict string) (s : State)
         (pre post : list message) (msg : message),
    last_n 5 (conversation_history s) = pre ++ msg :: post ->
    Forall plain_message pre ->
    plain (PyDict.get "role" msg) ->
    PyDict.get "content" msg = Some VNone ->
    call_tool py run "get_conversation_history" arguments s
    = (tool_error_text "get_conversation_history" "'NoneType' object is not subscriptable",
       print s (LogSwarmError
                  (tool_error_text "get_conversation_history"
                     "'NoneType' object is not subscriptable"))).
Proof.
  intros py run arguments s pre post msg Hlast Hpre Hr Hc.
  unfold call_tool. simpl. unfold get_conversation_history_handler.
  destruct (conversation_history s) as [|m0 h] eqn:Hh.
  - destruct pre; discriminate Hlast.
  - rewrite Hlast, (@history_loop_raises py pre post msg Hpre Hr Hc). reflexivity.
Qed.

Lemma history_fails_on_none_content_witness :
  fst (call_tool py0 silent_run "get_conversation_history" [] state_recent_none)
  = tool_error_text "get_conversation_history" "'NoneType' object is not subscriptable".
Proof.
  refine (f_equal fst (@history_fails_on_none_content py0 silent_run [] state_recent_none
            [user_message_of "one"] [] [("role", VStr "assistant"); ("content", VNone)]
            eq_refl _ _ eq_refl)).
  - repeat (apply Forall_cons; [split; right; eexists; reflexivity|]). apply Forall_nil.
  - right. eexists. reflexivity.
Defined.

(** ** Size of the relation *)

Lemma length_other_names (k : string) (l : list string) :
  NoDup l -> In k l -> length (other_names k l) = length l - 1.
Proof.
  induction l as [|x r IH]; simpl; intros Hnd Hin; [contradiction|].
  inversion Hnd as [|? ? Hx Hr]; subst.
  destruct (String.eqb_spec x k) as [->|Hne]; simpl.
  - rewrite other_names_fresh by exact Hx. lia.
  - destruct Hin as [Heq|Hin]; [contradiction|].
    fold (other_names k r). rewrite IH by assumption.
    destruct r; [contradiction | simpl; lia].
Qed.

Lemma list_sum_constant (A : Type) (f : A -> nat) (c : nat) (l : list A) :
  (forall x, In x l -> f x = c) -> list_sum (map f l) = length l * c.
Proof.
  induction l as [|x r IH]; simpl; intros H; [reflexivity|].
  rewrite H by (now left). rewrite IH by (intros; apply H; now right). reflexivity.
Qed.

Lemma functions_count (ags : dict ClaudeAgent) (k : string) (a : ClaudeAgent) :
  PyDict.wf ags -> In (k, a) (setup_transfer_functions ags) ->
  length (functions a) = length ags - 1.
Proof.
  intros Hwf Hin. apply in_setup_transfer_functions in Hin as [a0 [Hin ->]]. simpl.
  rewrite <- (length_map tf_target), functions_for_targets.
  rewrite length_other_names; [unfold PyDict.keys; now rewrite length_map | exact Hwf |].
  change k with (fst (k, a0)). now apply in_map.
Qed.

(** X17: the rebuild is idempotent, keeps the keys, their order and every
    record's name, model and instructions, and on a registry of n agents
    with distinct keys gives each agent n-1 transfer functions, n(n-1) in
    all. *)
Theorem rebuild_idempotent_and_quadratic :
  forall ags : dict ClaudeAgent,
    setup_transfer_functions (setup_transfer_functions ags) = setup_transfer_functions ags
    /\ PyDict.keys (setup_transfer_functions ags) = PyDict.keys ags
    /\ map triple (PyDict.values (setup_transfer_functions ags))
       = map triple (PyDict.values ags)
    /\ (PyDict.wf ags ->
        (forall k a, In (k, a) (setup_transfer_functions ags) ->
                     length (functions a) = length ags - 1)
        /\ list_sum (map (fun kv => length (functions (snd kv)))
                         (setup_transfer_functions ags))
           = length ags * (length ags - 1)).
Proof.
  intros ags.
  split; [apply setup_transfer_functions_idempotent|].
  split; [apply keys_setup_transfer_functions|].
  split; [apply triples_setup_transfer_functions|].
  intros Hwf. split.
  - intros k a Hin. eapply functions_count; [exact Hwf | exact Hin].
  - rewrite <- (length_setup_transfer_functions ags) at 1.
    apply list_sum_constant. intros [k a] Hin. simpl.
    eapply functions_count; [exact Hwf | exact Hin].
Qed.

Lemma rebuild_idempotent_and_quadratic_witness :
  list_sum (map (fun kv => length (functions (snd kv)))
                (setup_transfer_functions
                   [("A", mk_agent "A"); ("B", mk_agent "B"); ("C", mk_agent "C")]))
  = 6.
Proof.
  refine (proj2 (proj2 (proj2 (proj2 (rebuild_idempotent_and_quadratic
            [("A", mk_agent "A"); ("B", mk_agent "B"); ("C", mk_agent "C")]))) _)).
  repeat constructor; simpl; intuition discriminate.
Defined.

(** ** The [list_agents] branch *)



(** ** What a restart keeps *)

Lemma load_agents_fresh_session (disk : storage) :
  disk_ok (content disk) ->
  current_agent (load_agents (initial_state disk))
  = PyDict.first_key (agents (load_agents (initial_state disk)))
  /\ conversation_history (load_agents (initial_state disk)) = []
  /\ context_variables (load_agents (initial_state disk)) = [].
Proof.
  intros Hdisk. unfold load_agents. simpl.
  destruct (content disk) as [| |[| | | | |entries]]; try solve [repeat split].
  destruct Hdisk as [ags [Hwf [_ ->]]]. unfold PyDict.items.
  rewrite (load_loop_stored ags []) by exact Hwf. simpl.
  destruct ags as [|[k0 a0] r]; repeat split.
Qed.

(** X19: only the registry survives a restart.  In a process started on a
    sound file, a restart at any point leaves an empty transcript and empty
    context values, and the active agent is the first agent of the loaded
    registry (none when it is empty) -- on a writable file, the first agent
    of the registry that was in memory -- whichever agent was active
    before. *)
Theorem restart_resets_session :
  forall (py : python) (disk : storage) (events : list event),
    let s := serve py disk events in
    disk_ok (content disk) ->
    conversation_history (restart s) = []
    /\ context_variables (restart s) = []
    /\ current_agent (restart s) = PyDict.first_key (agents (restart s))
    /\ (writable disk = true ->
        current_agent (restart s) = PyDict.first_key (agents s)).
Proof.
  intros py disk events s Hdisk. subst s.
  destruct (served_ok_serve py disk events Hdisk) as [[Hwf [_ Hfix]] [Hd Hm]].
  destruct (load_agents_fresh_session (AGENTS_FILE (serve py disk events)) Hd)
    as [Hc [Hh Hx]].
  unfold restart. split; [exact Hh|]. split; [exact Hx|]. split; [exact Hc|].
  intros Hw. rewrite Hc. f_equal.
  apply restart_restores; [exact Hwf | exact Hfix |].
  apply Hm. now rewrite writable_serve.
Qed.

Lemma restart_resets_session_witness :
  current_agent
    (restart (serve py0 disk0
                (events_AB ++ [Request silent_run "chat_with_swarm"
                                 [("message", "hi"); ("agent_name", "B")]])))
  = Some "A".
Proof.
  refine (eq_trans (proj2 (proj2 (proj2 (restart_resets_session py0 disk0
            (events_AB ++ [Request silent_run "chat_with_swarm"
                             [("message", "hi"); ("agent_name", "B")]]) I))) eq_refl) _).
  reflexivity.
Defined.

(** * Relations after every change of the registry *)

Lemma keys_others (k : string) (ags : dict ClaudeAgent) :
  PyDict.keys (others k ags) = other_names k (PyDict.keys ags).
Proof.
  unfold others, other_names, PyDict.keys.
  induction ags as [|[k' a'] r IH]; simpl; [reflexivity|].
  destruct (negb (String.eqb k' k)); simpl; now rewrite IH.
Qed.

Lemma others_map (g : string * ClaudeAgent -> string * ClaudeAgent)
  (k : string) (ags : dict ClaudeAgent) :
  (forall kv, fst (g kv) = fst kv) ->
  others k (map g ags) = map g (others k ags).
Proof.
  intros Hg. unfold others. induction ags as [|kv r IH]; simpl; [reflexivity|].
  rewrite Hg. destruct (negb (String.eqb (fst kv) k)); simpl; now rewrite IH.
Qed.

Lemma names_others_setup (k : string) (ags : dict ClaudeAgent) :
  map name (PyDict.values (others k (setup_transfer_functions ags)))
  = map name (PyDict.values (others k ags)).
Proof.
  unfold setup_transfer_functions. rewrite others_map by reflexivity.
  unfold PyDict.values. rewrite !map_map. apply map_ext. intros [k' a']. reflexivity.
Qed.

Lemma functions_for_names (k : string) (ags : dict ClaudeAgent) :
  map tf_target_name (functions_for k (build_transfer_functions ags))
  = map name (PyDict.values (others k ags)).
Proof.
  unfold others, PyDict.values.
  induction ags as [|[k' a'] r IH]; simpl; [reflexivity|].
  destruct (negb (String.eqb k' k)); simpl; now rewrite IH.
Qed.

Lemma relations_complete_setup (ags : dict ClaudeAgent) :
  relations_complete (setup_transfer_functions ags).
Proof.
  intros k a Hin. apply in_setup_transfer_functions in Hin as [a0 [_ ->]].
  unfold transferTargets. simpl.
  rewrite keys_others, keys_setup_transfer_functions, names_others_setup.
  split; [apply functions_for_targets | apply functions_for_names].
Qed.

Lemma relations_complete_nil : relations_complete [].
Proof. intros k a []. Qed.

(** C1, as stated, on a file whose third record lacks members: the load
    has inserted agents A and B, the rebuild has not run, and both are left
    without transfer targets although each has the other beside it. *)
Lemma rebuild_after_load_counterexample :
  PyDict.keys (agents (load_agents (initial_state disk_AB_then_bad))) = ["A"; "B"]
  /\ map (fun kv => transferTargets (snd kv))
       (agents (load_agents (initial_state disk_AB_then_bad))) = [[]; []]
  /\ ~ relations_complete (agents (load_agents (initial_state disk_AB_then_bad))).
Proof.
  split; [reflexivity|]. split; [reflexivity|].
  intros H. destruct (H "A" (mk_agent "A")) as [H1 _]; [left; reflexivity|].
  vm_compute in H1. discriminate H1.
Qed.

(** C1 (amended): a relation rebuild keeps the registry's keys, their order
    and every record's name, model and instructions, and leaves every agent
    with one transfer function per other entry, in registry order and none
    to itself, so that its transferTargets are the names of the other
    registered agents; when keys are names these are the other names, its
    own not among them.  The registry may be empty.  The rebuild has run,
    and the relations are complete, after an accepted [create_agent], after
    a [create_finance_team] that created an agent, and after a load that
    logged no error; a load that stops at a record it cannot read is left
    out. *)
Theorem rebuild_transfer_targets_exact :
  forall (ags : dict ClaudeAgent) (args : dict string) (s : State) (disk : storage),
    (PyDict.keys (setup_transfer_functions ags) = PyDict.keys ags
     /\ map triple (PyDict.values (setup_transfer_functions ags))
        = map triple (PyDict.values ags)
     /\ relations_complete (setup_transfer_functions ags)
     /\ (forall k a, In (k, a) (setup_transfer_functions ags) ->
           ~ In k (map tf_target (functions a)))
     /\ (keys_are_names ags ->
         forall k a, In (k, a) (setup_transfer_functions ags) ->
           name a = k
           /\ transferTargets a = other_names (name a) (map name (PyDict.values ags))
           /\ ~ In (name a) (transferTargets a)))
    /\ (args_get "name" "" args <> "" -> args_get "instructions" "" args <> "" ->
        PyDict.mem (args_get "name" "" args) (agents s) = false ->
        relations_complete (agents (snd (create_agent_handler args s))))
    /\ (filter (fun n => negb (PyDict.mem n (agents s))) team_names <> [] ->
        relations_complete (agents (snd (create_finance_team_handler args s))))
    /\ (~ In LogLoadError (stderr (load_agents (initial_state disk))) ->
        relations_complete (agents (load_agents (initial_state disk)))).
Proof.
  intros ags args s disk. split; [|split; [|split]].
  - split; [apply keys_setup_transfer_functions|].
    split; [apply triples_setup_transfer_functions|].
    split; [apply relations_complete_setup|]. split.
    + intros k a Hin. apply in_setup_transfer_functions in Hin as [a0 [_ ->]]. simpl.
      rewrite functions_for_targets. apply other_names_not_self.
    + intros Hinv k a Hin.
      apply in_setup_transfer_functions in Hin as [a0 [Hin0 ->]].
      unfold transferTargets. simpl.
      rewrite functions_for_target_names by assumption.
      rewrite names_of_values by assumption.
      rewrite (Hinv _ _ Hin0), functions_for_targets.
      split; [reflexivity|]. split; [reflexivity | apply other_names_not_self].
  - intros Hn Hi Hmem. rewrite (create_agent_rebuilds args s Hn Hi Hmem).
    apply relations_complete_setup.
  - intros Hcreated. rewrite create_finance_team_result.
    rewrite <- (team_specs_names (args_get "company_name" "Investment Firm" args)),
      <- missing_specs_names in Hcreated.
    destruct (missing_specs _ _) as [|sp new]; [now destruct Hcreated|].
    simpl. rewrite agents_save_agents. apply relations_complete_setup.
  - intros Hlog. unfold load_agents in *. simpl in *.
    destruct (content disk) as [| |[| | | | |entries]];
      try (exfalso; apply Hlog; left; reflexivity);
      try apply relations_complete_nil.
    unfold PyDict.items in *.
    destruct (load_loop entries []) as [loaded []].
    + match goal with |- context [if ?c then _ else _] => destruct c end;
        simpl; apply relations_complete_setup.
    + exfalso. apply Hlog. left. reflexivity.
Qed.

Lemma rebuild_transfer_targets_exact_witness :
  relations_complete (agents (snd (create_agent_handler args_new_C state_AB)))
  /\ relations_complete (agents (load_agents (initial_state disk0)))
  /\ relations_complete (agents (snd (create_finance_team_handler [] state_AB))).
Proof.
  pose proof (rebuild_transfer_targets_exact [] args_new_C state_AB disk0)
    as [_ [H1 [_ H3]]].
  pose proof (rebuild_transfer_targets_exact [] [] state_AB disk0) as [_ [_ [H2 _]]].
  split; [apply H1; [discriminate | discriminate | reflexivity]|].
  split.
  - apply H3. simpl. intros [H|[]]. discriminate H.
  - apply H2. discriminate.
Defined.

(** * Loading, the failing paths *)

Lemma subscript_raises_none (data : json) :
  subscript_raises data -> agent_of_json data = None.
Proof.
  destruct data as [| | | | |o]; try reflexivity. simpl.
  intros [H|[H|H]]; rewrite H.
  - reflexivity.
  - destruct (PyDict.get "name" o) as [[]|]; reflexivity.
  - destruct (PyDict.get "name" o) as [[]|]; try reflexivity;
      destruct (PyDict.get "model" o) as [[]|]; reflexivity.
Qed.

Lemma stored_as_loaded (kv : string * json) (ka : string * ClaudeAgent) :
  stored_as kv ka -> fst ka = fst kv /\ agent_of_json (snd kv) = Some (snd ka).
Proof.
  destruct kv as [k d], ka as [k' [n m i fs]].
  intros [Hk [Hfs [o [Hd [Hn [Hm Hi]]]]]]. simpl in *. subst.
  split; [reflexivity|]. now apply agent_of_json_members.
Qed.

(** C9 (amended): loading never raises.  On a missing file the registry
    stays empty and no error is logged.  On content that is not JSON, or
    whose top level is not an object, the error is logged and the registry
    stays empty.  On an object in which records with string members name,
    model and instructions are followed by a record that is not an object
    or lacks one of these members, the error is logged, the records before
    it are kept, in order and without transfer functions, and no active
    agent is chosen; with such a record first, the registry stays empty. *)
Theorem load_agents_failure_paths :
  forall disk : storage,
    let s' := load_agents (initial_state disk) in
    (content disk = Absent -> agents s' = [] /\ stderr s' = [LogLoaded 0])
    /\ (forall raw, content disk = Garbage raw ->
          agents s' = [] /\ stderr s' = [LogLoadError])
    /\ (forall doc, content disk = Document doc -> (forall o, doc <> JObj o) ->
          agents s' = [] /\ stderr s' = [LogLoadError])
    /\ (forall pre k bad post recs,
          content disk = Document (JObj (pre ++ (k, bad) :: post)) ->
          subscript_raises bad ->
          Forall2 stored_as pre recs ->
          PyDict.wf recs ->
          agents s' = recs /\ stderr s' = [LogLoadError] /\ current_agent s' = None
          /\ Forall (fun ka => transferTargets (snd ka) = []) (agents s')).
Proof.
  intros disk s'. subst s'. unfold load_agents. simpl.
  split; [intros ->; split; reflexivity|].
  split; [intros raw ->; split; reflexivity|].
  split.
  { intros doc -> Hno. destruct doc; try (split; reflexivity).
    now destruct (Hno members). }
  intros pre k bad post recs -> Hbad Hpre Hwf. unfold PyDict.items.
  assert (Hloaded : Forall2 (fun kv ka => fst ka = fst kv
                                          /\ agent_of_json (snd kv) = Some (snd ka))
                            pre recs).
  { eapply Forall2_impl; [|exact Hpre]. intros kv ka. apply stored_as_loaded. }
  rewrite (@load_loop_stops pre post k bad (subscript_raises_none bad Hbad)
             recs [] Hloaded Hwf). simpl.
  repeat split.
  clear -Hpre. induction Hpre as [|kv ka pre' recs' [_ [Hfs _]] _ IH];
    constructor; [|exact IH].
  unfold transferTargets. now rewrite Hfs.
Qed.

Lemma load_agents_failure_paths_witness :
  agents (load_agents (initial_state broken_disk)) = [("A", mk_agent "A")]
  /\ agents (load_agents (initial_state disk0)) = [].
Proof.
  split.
  - refine (proj1 (proj2 (proj2 (proj2 (load_agents_failure_paths broken_disk)))
                     [("A", agent_entry (mk_agent "A"))] "B" (JObj [("name", JStr "B")])
                     [] [("A", mk_agent "A")] eq_refl _ _ _)).
    + right. left. reflexivity.
    + repeat constructor. simpl. eexists. repeat split.
    + repeat constructor. simpl. tauto.
  - exact (proj1 (proj1 (load_agents_failure_paths disk0) eq_refl)).
Defined.

(** * Replies and commits of a chat the collaborator answered *)

(** C10: when the collaborator returns an empty message list, the state is
    committed all the same: the transcript becomes empty, the returned
    agent's name becomes the active agent, and every context key holds the
    value the collaborator returned for it or, if it returned none, the
    value it had before.  The reply is the returned agent's header, a blank
    line, the literal [No response], and the transfer annotation when the
    returned agent's name is not the key the chat started from. *)
Theorem chat_empty_response_committed :
  forall (run : collaborator) (args : dict string) (s : State)
         (k : string) (a : ClaudeAgent) (response : ClaudeResponse),
    let m := args_get "message" "" args in
    let final := name (agent response) in
    m <> "" ->
    starting_agent_of args s = Some (k, a) ->
    run a (conversation_history s ++ [user_message_of m]) (context_variables s)
      = Returned response ->
    messages response = [] ->
    PyDict.wf (response_context_variables response) ->
    let r := chat_with_swarm_handler run args s in
    fst r = ("🤖 **" ++ final ++ "**:" ++ String "010"%char (String "010"%char "")
             ++ "No response"
             ++ (if String.eqb final k then ""
                 else String "010"%char (String "010"%char "")
                      ++ "🔄 **Agent Transfer**: " ++ k ++ " → " ++ final))%string
    /\ conversation_history (snd r) = []
    /\ current_agent (snd r) = Some final
    /\ (forall key,
          PyDict.get key (context_variables (snd r))
          = match PyDict.get key (response_context_variables response) with
            | Some v => Some v
            | None => PyDict.get key (context_variables s)
            end).
Proof.
  intros run args s k a response m final Hm Hstart Hrun Hempty Hwf r. subst r final.
  unfold chat_with_swarm_handler. fold m.
  apply str_truthy_true in Hm. rewrite Hm.
  rewrite (starting_agent_nonempty _ _ Hstart), Hstart. simpl.
  rewrite Hrun. simpl. rewrite Hempty. simpl.
  split; [|split; [reflexivity|split; [reflexivity|]]].
  - unfold chat_reply, transfer_info_of, nl. simpl.
    destruct (String.eqb (name (agent response)) k); reflexivity.
  - intros key. now apply PyDictFacts.get_update.
Qed.

Lemma chat_empty_response_committed_witness :
  fst (chat_with_swarm_handler handoff_run [("message", "hi")] state_AB_ctx)
  = ("🤖 **B**:" ++ String "010"%char (String "010"%char "") ++ "No response"
     ++ String "010"%char (String "010"%char "")
     ++ "🔄 **Agent Transfer**: A → B")%string
  /\ conversation_history
       (snd (chat_with_swarm_handler handoff_run [("message", "hi")] state_AB_ctx)) = []
  /\ PyDict.get "a" (context_variables
       (snd (chat_with_swarm_handler handoff_run [("message", "hi")] state_AB_ctx)))
     = Some (VStr "old")
  /\ PyDict.get "k" (context_variables
       (snd (chat_with_swarm_handler handoff_run [("message", "hi")] state_AB_ctx)))
     = Some (VStr "v").
Proof.
  pose proof (@chat_empty_response_committed handoff_run [("message", "hi")] state_AB_ctx
                "A" (with_functions (mk_agent "A") [create_transfer "B" (mk_agent "B")])
                {| messages := []; agent := mk_agent "B";
                   response_context_variables := [("k", VStr "v")] |}) as H.
  cbv zeta in H.
  destruct H as [H1 [H2 [_ H4]]];
    [discriminate | reflexivity | reflexivity | reflexivity | |].
  - repeat constructor. simpl. tauto.
  - split; [exact H1|]. split; [exact H2|].
    split; [exact (H4 "a") | exact (H4 "k")].
Defined.

(** X8: when the collaborator returns, the transcript becomes exactly the
    returned message list (what was there before, the user message
    included, is dropped unless the collaborator returns it), the returned
    agent's name becomes the active agent whether or not it is registered,
    and the registry and the file are untouched.  The reply is the returned
    agent's header, a blank line, the content of the last returned message
    ([No response] when there is none), and the transfer annotation exactly
    when the returned agent's name differs from the key under which the
    starting agent is registered -- the starting agent's own name on a
    registry whose keys are names. *)
Theorem chat_success_commit :
  forall (run : collaborator) (args : dict string) (s : State)
         (k : string) (a : ClaudeAgent) (response : ClaudeResponse),
    let m := args_get "message" "" args in
    let r := chat_with_swarm_handler run args s in
    let final := name (agent response) in
    let shown :=
      match PyDict.get "content" (last (messages response) []) with
      | Some (VStr c) => c
      | Some VNone => "None"%string
      | Some (VOther repr) => repr
      | None => "No response"%string
      end in
    m <> "" ->
    starting_agent_of args s = Some (k, a) ->
    run a (conversation_history s ++ [user_message_of m]) (context_variables s)
      = Returned response ->
    conversation_history (snd r) = messages response
    /\ current_agent (snd r) = Some final
    /\ agents (snd r) = agents s
    /\ AGENTS_FILE (snd r) = AGENTS_FILE s
    /\ stderr (snd r) = stderr s ++ [LogChatCompleted k final]
    /\ fst r = ("🤖 **" ++ final ++ "**:" ++ String "010"%char (String "010"%char "")
                ++ shown
                ++ (if String.eqb final k then ""
                    else String "010"%char (String "010"%char "")
                         ++ "🔄 **Agent Transfer**: " ++ k ++ " → " ++ final))%string
    /\ In (k, a) (agents s)
    /\ (keys_are_names (agents s) -> name a = k).
Proof.
  intros run args s k a response m r final shown Hm Hstart Hrun. subst r final shown.
  assert (Hin : In (k, a) (agents s)) by (now apply (starting_agent_registered args s)).
  unfold chat_with_swarm_handler. fold m.
  apply str_truthy_true in Hm. rewrite Hm.
  rewrite (starting_agent_nonempty _ _ Hstart), Hstart. simpl.
  rewrite Hrun. simpl.
  repeat split; try exact Hin; try (intros Hinv; now apply Hinv).
  unfold chat_reply, transfer_info_of, nl. simpl.
  destruct (PyDict.get "content" (last (messages response) [])) as [[c| |repr]|];
    destruct (String.eqb (name (agent response)) k); reflexivity.
Qed.

Lemma chat_success_commit_witness :
  conversation_history (snd (chat_with_swarm_handler silent_run [("message", "hi")] state_AB))
  = []
  /\ fst (chat_with_swarm_handler handoff_run [("message", "hi")] state_AB_ctx)
     = ("🤖 **B**:" ++ String "010"%char (String "010"%char "") ++ "No response"
        ++ String "010"%char (String "010"%char "")
        ++ "🔄 **Agent Transfer**: A → B")%string.
Proof.
  split.
  - pose proof (@chat_success_commit silent_run [("message", "hi")] state_AB "B"
                  (with_functions (mk_agent "B") [create_transfer "A" (mk_agent "A")])
                  {| messages := [];
                     agent := with_functions (mk_agent "B")
                                [create_transfer "A" (mk_agent "A")];
                     response_context_variables := [("k", VStr "v")] |}) as H.
    cbv zeta in H.
    destruct H as [H _]; [discriminate | reflexivity | reflexivity | exact H].
  - pose proof (@chat_success_commit handoff_run [("message", "hi")] state_AB_ctx "A"
                  (with_functions (mk_agent "A") [create_transfer "B" (mk_agent "B")])
                  {| messages := []; agent := mk_agent "B";
                     response_context_variables := [("k", VStr "v")] |}) as H.
    cbv zeta in H.
    destruct H as [_ [_ [_ [_ [_ [H _]]]]]];
      [discriminate | reflexivity | reflexivity | exact H].
Defined.
